(** * Keycloak provisioning scripts: model and verified properties

    Shallow embedding of [scripts/fix-keycloak-client.py] and
    [scripts/setup-keycloak-multitenant.py].

    - Python text ([str]) and byte strings are modelled by [string]; one
      [ascii] stands for one character of a token.
    - JSON values are the inductive [value]; a [dict] is an association
      list in insertion order.
    - The scripts run in a small state-and-exception monad [M]: the state
      holds the HTTP requests sent so far and the lines printed so far; the
      identity provider is a function from the request history to a reply.
    - [json.loads], [json.dumps] and Python's [str()] of non-string values
      are fields of the [Environment] class (the JSON layer is an external
      collaborator); [base64.b64decode] is modelled after CPython's
      [binascii.a2b_base64] in its default, non-strict mode. *)

From Stdlib Require Import ZArith List String Ascii Bool Lia DecimalString.
Import ListNotations.

Local Open Scope string_scope.
Local Open Scope Z_scope.

(* ------------------------------------------------------------------ *)
(** ** Text helpers *)

Module Text.

(** [len(s)] *)
Definition len (s : string) : Z := Z.of_nat (String.length s).

(** [s * n] for a one-character [s]: the empty string when [n <= 0]. *)
Fixpoint repeat_nat (c : ascii) (n : nat) : string :=
  match n with
  | O => EmptyString
  | S k => String c (repeat_nat c k)
  end.

Definition str_mul (c : ascii) (n : Z) : string := repeat_nat c (Z.to_nat n).

(** [s.split(sep)] for a one-character separator. *)
Fixpoint split_on (sep : ascii) (cur : string) (s : string) : list string :=
  match s with
  | EmptyString => [cur]
  | String c rest =>
      if Ascii.eqb c sep then cur :: split_on sep EmptyString rest
      else split_on sep (cur ++ String c EmptyString) rest
  end.

Definition split (s : string) (sep : ascii) : list string :=
  split_on sep EmptyString s.

(** [c in s] for a character [c]. *)
Fixpoint mem_char (c : ascii) (s : string) : bool :=
  match s with
  | EmptyString => false
  | String d rest => Ascii.eqb c d || mem_char c rest
  end.

Fixpoint str_forallb (p : ascii -> bool) (s : string) : bool :=
  match s with
  | EmptyString => true
  | String c rest => p c && str_forallb p rest
  end.

Fixpoint str_filter (p : ascii -> bool) (s : string) : string :=
  match s with
  | EmptyString => EmptyString
  | String c rest =>
      if p c then String c (str_filter p rest) else str_filter p rest
  end.

Fixpoint str_map (f : ascii -> ascii) (s : string) : string :=
  match s with
  | EmptyString => EmptyString
  | String c rest => String (f c) (str_map f rest)
  end.

Definition code (c : ascii) : Z := Z.of_N (N_of_ascii c).

Definition chr (n : Z) : ascii := ascii_of_N (Z.to_N n).

(** [needle in haystack] on text: substring test. *)
Fixpoint is_substring (needle hay : string) : bool :=
  String.prefix needle hay
  || match hay with
     | EmptyString => false
     | String _ rest => is_substring needle rest
     end.

End Text.

(* ------------------------------------------------------------------ *)
(** ** The base64 decoder of the Python library

    [base64.b64decode(s)] with its default arguments: a text argument is
    encoded as ASCII ([ValueError] otherwise) and handed to
    [binascii.a2b_base64] in non-strict mode, whose loop is transcribed
    below. *)

Module Base64.

Inductive b64_error : Type :=
| NotAscii          (* ValueError: string argument should contain only ASCII characters *)
| InvalidLength     (* binascii.Error: 1 more than a multiple of 4 data characters *)
| IncorrectPadding. (* binascii.Error: Incorrect padding *)

Definition BASE64_PAD : ascii := "="%char.

(** [table_a2b_base64]: 0..63 for the characters of the standard alphabet
    [A-Z a-z 0-9 + /], 255 (the [-1] entries read as [unsigned char]) for
    every other character. *)
Definition table_a2b_base64 (c : ascii) : Z :=
  let n := Text.code c in
  if (65 <=? n) && (n <=? 90) then n - 65
  else if (97 <=? n) && (n <=? 122) then n - 71
  else if (48 <=? n) && (n <=? 57) then n + 4
  else if n =? 43 then 62
  else if n =? 47 then 63
  else 255.

(** [unsigned char] store. *)
Definition u8 (x : Z) : ascii := Text.chr (Z.land x 255).

Definition snoc (s : string) (c : ascii) : string := s ++ String c EmptyString.

(** The decoding loop.  [quad_pos], [leftchar] and [pads] are the C
    locals; [bin_data] is the output written so far.  [inl] stands for the
    error exits after the loop, the early [inr] for [goto done]. *)
Fixpoint a2b_loop (ascii_data : string) (quad_pos leftchar pads : Z)
         (bin_data : string) : b64_error + string :=
  match ascii_data with
  | EmptyString =>
      if quad_pos =? 0 then inr bin_data
      else if quad_pos =? 1 then inl InvalidLength
      else inl IncorrectPadding
  | String this_ch rest =>
      if Ascii.eqb this_ch BASE64_PAD then
        if 2 <=? quad_pos then
          if 4 <=? quad_pos + (pads + 1) then inr bin_data
          else a2b_loop rest quad_pos leftchar (pads + 1) bin_data
        else a2b_loop rest quad_pos leftchar pads bin_data
      else
        let v := table_a2b_base64 this_ch in
        if 64 <=? v then a2b_loop rest quad_pos leftchar pads bin_data
        else if quad_pos =? 0 then
          a2b_loop rest 1 v 0 bin_data
        else if quad_pos =? 1 then
          a2b_loop rest 2 (Z.land v 15) 0
                   (snoc bin_data (u8 (Z.lor (Z.shiftl leftchar 2) (Z.shiftr v 4))))
        else if quad_pos =? 2 then
          a2b_loop rest 3 (Z.land v 3) 0
                   (snoc bin_data (u8 (Z.lor (Z.shiftl leftchar 4) (Z.shiftr v 2))))
        else
          a2b_loop rest 0 0 0
                   (snoc bin_data (u8 (Z.lor (Z.shiftl leftchar 6) v)))
  end.

Definition a2b_base64 (data : string) : b64_error + string :=
  a2b_loop data 0 0 0 EmptyString.

Definition is_ascii (c : ascii) : bool := Text.code c <? 128.

(** [base64.b64decode(s)] *)
Definition b64decode (s : string) : b64_error + string :=
  if Text.str_forallb is_ascii s then a2b_base64 s else inl NotAscii.

(** [_urlsafe_decode_translation]: ['-'] to ['+'], ['_'] to ['/']. *)
Definition urlsafe_translate (c : ascii) : ascii :=
  if Ascii.eqb c "-"%char then "+"%char
  else if Ascii.eqb c "_"%char then "/"%char
  else c.

(** [base64.urlsafe_b64decode(s)], the decoder for the alphabet of JWT
    compact serialization. *)
Definition urlsafe_b64decode (s : string) : b64_error + string :=
  if Text.str_forallb is_ascii s
  then a2b_base64 (Text.str_map urlsafe_translate s)
  else inl NotAscii.

End Base64.

(* ------------------------------------------------------------------ *)
(** ** Padding of the claims segment (both scripts)

    [payload += '=' * (4 - len(payload) % 4)] *)

Definition pad_count (payload : string) : Z := 4 - Text.len payload mod 4.

Definition pad_segment (payload : string) : string :=
  payload ++ Text.str_mul "="%char (pad_count payload).

(* ------------------------------------------------------------------ *)
(** ** Python values and the operations the scripts apply to them *)

(** JSON data as [json.loads] builds it.  JSON numbers are the integers:
    neither script computes with a number it reads. *)
#[local] Set Warnings "-register-all".
Inductive value : Type :=
| VNone
| VBool (b : bool)
| VInt (n : Z)
| VStr (s : string)
| VList (items : list value)
| VDict (entries : list (string * value)).

(** The exceptions the modelled code can raise; all are subclasses of
    [Exception]. *)
Inductive exn : Type :=
| HTTPError (code : Z) (body : string)   (* urllib.error.HTTPError *)
| URLError (reason : string)             (* no connection: refused, unreachable *)
| TimeoutError                           (* no answer within the timeout *)
| RemoteDisconnected                     (* connection closed without answer *)
| JSONDecodeError                        (* json.loads on malformed text *)
| BinasciiError (why : Base64.b64_error) (* base64.b64decode *)
| IndexError
| KeyError (key : string)
| TypeError
| AttributeError.

(** A pure step that may raise. *)
Inductive result (A : Type) : Type :=
| Val (a : A)
| Err (e : exn).
Arguments Val {A} a.
Arguments Err {A} e.

Definition rbind {A B : Type} (r : result A) (k : A -> result B) : result B :=
  match r with
  | Val a => k a
  | Err e => Err e
  end.

Module Dict.

(** Association lists with the insertion order of a Python [dict]. *)
Definition t : Type := list (string * value).

Fixpoint get (k : string) (d : t) : option value :=
  match d with
  | [] => None
  | (k', v) :: rest => if String.eqb k k' then Some v else get k rest
  end.

(** [d[k] = v]: overwrite in place, or append a new key. *)
Fixpoint set (k : string) (v : value) (d : t) : t :=
  match d with
  | [] => [(k, v)]
  | (k', v') :: rest =>
      if String.eqb k k' then (k', v) :: rest else (k', v') :: set k v rest
  end.

Definition mem (k : string) (d : t) : bool :=
  match get k d with Some _ => true | None => false end.

Definition keys (d : t) : list string := map fst d.

(** [{**a, **b}] *)
Definition merge (a b : t) : t :=
  fold_left (fun acc kv => set (fst kv) (snd kv) acc) b a.

End Dict.

(** Truth value of an object, as [if x:] and [not x] test it. *)
Definition truthy (v : value) : bool :=
  match v with
  | VNone => false
  | VBool b => b
  | VInt n => negb (n =? 0)
  | VStr s => negb (String.eqb s "")
  | VList items => match items with [] => false | _ => true end
  | VDict entries => match entries with [] => false | _ => true end
  end.

(** [x or y] *)
Definition py_or (x y : value) : value := if truthy x then x else y.

Fixpoint nth_char (s : string) (i : nat) : option ascii :=
  match s, i with
  | EmptyString, _ => None
  | String c _, O => Some c
  | String _ rest, S j => nth_char rest j
  end.

(** [v[i]] for a non-negative integer literal [i]. *)
Definition getitem_int (v : value) (i : nat) : result value :=
  match v with
  | VList items =>
      match nth_error items i with Some x => Val x | None => Err IndexError end
  | VStr s =>
      match nth_char s i with
      | Some c => Val (VStr (String c EmptyString))
      | None => Err IndexError
      end
  | VDict _ => Err (KeyError (NilZero.string_of_uint (Nat.to_uint i)))
  | VNone | VBool _ | VInt _ => Err TypeError
  end.

(** [v[k]] for a string literal [k]. *)
Definition getitem_key (v : value) (k : string) : result value :=
  match v with
  | VDict d =>
      match Dict.get k d with Some x => Val x | None => Err (KeyError k) end
  | _ => Err TypeError
  end.

(** [v[k] = x] for a string literal [k]. *)
Definition setitem_key (v : value) (k : string) (x : value) : result value :=
  match v with
  | VDict d => Val (VDict (Dict.set k x d))
  | _ => Err TypeError
  end.

(** [v.get(k, default)] *)
Definition py_get (v : value) (k : string) (default : value) : result value :=
  match v with
  | VDict d =>
      match Dict.get k d with Some x => Val x | None => Val default end
  | _ => Err AttributeError
  end.

(** [list(v.keys())] *)
Definition py_keys (v : value) : result value :=
  match v with
  | VDict d => Val (VList (map VStr (Dict.keys d)))
  | _ => Err AttributeError
  end.

(** [{**v, **upd}] for a dict display [upd]. *)
Definition dict_unpack_merge (v : value) (upd : Dict.t) : result value :=
  match v with
  | VDict d => Val (VDict (Dict.merge d upd))
  | _ => Err TypeError
  end.

Fixpoint chars_of (s : string) : list value :=
  match s with
  | EmptyString => []
  | String c rest => VStr (String c EmptyString) :: chars_of rest
  end.

(** The elements a [for] loop, a comprehension or [set.update] draws from
    [v]. *)
Definition py_iter (v : value) : result (list value) :=
  match v with
  | VList items => Val items
  | VStr s => Val (chars_of s)
  | VDict d => Val (map VStr (Dict.keys d))
  | VNone | VBool _ | VInt _ => Err TypeError
  end.

(** [v == k] for a string literal [k]. *)
Definition eq_str (k : string) (v : value) : bool :=
  match v with
  | VStr s => String.eqb k s
  | _ => false
  end.

(** [k in v] for a string literal [k]. *)
Definition contains_str (k : string) (v : value) : result bool :=
  match v with
  | VList items => Val (existsb (eq_str k) items)
  | VStr s => Val (Text.is_substring k s)
  | VDict d => Val (Dict.mem k d)
  | VNone | VBool _ | VInt _ => Err TypeError
  end.

Definition hashable (v : value) : bool :=
  match v with
  | VList _ | VDict _ => false
  | _ => true
  end.

(** A [set] of values, as the list of the elements added to it. *)
Definition pyset : Type := list value.

(** [s.update(v)]: every element of [v] is hashed on insertion. *)
Definition set_update (s : pyset) (v : value) : result pyset :=
  rbind (py_iter v) (fun items =>
    if forallb hashable items then Val (s ++ items)%list else Err TypeError).

(** [k in s] for a string literal [k] and a set [s]. *)
Definition set_contains_str (k : string) (s : pyset) : bool :=
  existsb (eq_str k) s.

(** [tok.split('.')] *)
Definition py_split_dot (v : value) : result (list string) :=
  match v with
  | VStr s => Val (Text.split s "."%char)
  | _ => Err AttributeError
  end.

(** [r.startswith(p)] *)
Definition py_startswith (v : value) (p : string) : result bool :=
  match v with
  | VStr s => Val (String.prefix p s)
  | _ => Err AttributeError
  end.

(** [[r for r in items if not r.startswith(p)]] *)
Fixpoint filter_not_startswith (p : string) (items : list value)
  : result (list value) :=
  match items with
  | [] => Val []
  | r :: rest =>
      rbind (py_startswith r p) (fun b =>
      rbind (filter_not_startswith p rest) (fun kept =>
      Val (if b then kept else r :: kept)))
  end.

Definition format_int (n : Z) : string := NilZero.string_of_int (Z.to_int n).

(* ------------------------------------------------------------------ *)
(** ** The run-time: requests, output, exceptions and exit *)

(** A [urllib.request.Request]: URL, body, headers and explicit method
    ([None] lets the library choose GET or POST). *)
Record request : Type := Request {
  full_url : string;
  data : option string;
  headers : list (string * string);
  method : option string
}.

(** What the identity provider answers: a final HTTP response with its
    status and its body, which is UTF-8 text; or nothing, because the
    connection cannot be made ([NoReply]), because the provider accepts the
    request and stays silent ([Silent]), or because it closes the
    connection before answering ([Closed]). *)
Inductive reply : Type :=
| Reply (status : Z) (content : string)
| NoReply (reason : string)
| Silent
| Closed.

(** State of a run: requests sent and lines printed, oldest first. *)
Record state : Type := State {
  sent : list request;
  stdout : list string
}.

(** How a statement ends: normally, with an exception, or with
    [sys.exit(status)], which no handler of the scripts catches. *)
Inductive outcome (A : Type) : Type :=
| Ok (a : A)
| Raise (e : exn)
| Exit (status : Z).
Arguments Ok {A} a.
Arguments Raise {A} e.
Arguments Exit {A} status.

Definition M (A : Type) : Type := state -> outcome A * state.

(** The state once [req] has gone out, and once [line] has been printed. *)
Definition sending (st : state) (req : request) : state :=
  State (sent st ++ [req])%list (stdout st).

Definition printing (st : state) (line : string) : state :=
  State (sent st) (stdout st ++ [line])%list.

Definition ret {A : Type} (a : A) : M A := fun st => (Ok a, st).

Definition bind {A B : Type} (m : M A) (k : A -> M B) : M B :=
  fun st =>
    match m st with
    | (Ok a, st') => k a st'
    | (Raise e, st') => (Raise e, st')
    | (Exit n, st') => (Exit n, st')
    end.

Declare Scope py_scope.
Delimit Scope py_scope with py.
Notation "x <- m ;; k" := (bind m (fun x => k))
  (at level 100, m at next level, right associativity) : py_scope.
Notation "' p <- m ;; k" := (bind m (fun x => match x with p => k end))
  (at level 100, p pattern, m at next level, right associativity) : py_scope.
Notation "m ;; k" := (bind m (fun _ => k))
  (at level 100, right associativity) : py_scope.
Local Open Scope py_scope.

Definition lift {A : Type} (r : result A) : M A :=
  fun st =>
    match r with
    | Val a => (Ok a, st)
    | Err e => (Raise e, st)
    end.

Definition print (line : string) : M unit :=
  fun st => (Ok tt, printing st line).

Definition sys_exit {A : Type} (status : Z) : M A :=
  fun st => (Exit status, st).

(** [try: body  except <class> as e: handler]: [handler e] is [None] when
    the class of the clause does not cover [e]. *)
Definition try_except {A : Type} (body : M A) (handler : exn -> option (M A))
  : M A :=
  fun st =>
    match body st with
    | (Raise e, st') =>
        match handler e with
        | Some h => h st'
        | None => (Raise e, st')
        end
    | other => other
    end.

(** [for x in xs: body x] *)
Fixpoint for_each {A : Type} (xs : list A) (body : A -> M unit) : M unit :=
  match xs with
  | [] => ret tt
  | x :: rest => body x ;; for_each rest body
  end.

(** What the operating system sees when the interpreter stops: exit status
    and what the interpreter itself wrote to standard error.  An exception
    nobody caught is reported as a traceback naming it, with status 1. *)
Definition process_status {A : Type} (o : outcome A) : Z :=
  match o with
  | Ok _ => 0
  | Raise _ => 1
  | Exit n => n
  end.

Definition traceback {A : Type} (o : outcome A) : option exn :=
  match o with
  | Raise e => Some e
  | _ => None
  end.

Definition KC : string := "http://localhost:8080".
Definition REALM : string := "crm-prod".

Definition ok (code : Z) : bool :=
  (code =? 200) || (code =? 201) || (code =? 204).

Definition status_icon (code : Z) : string :=
  if ok code then "✅" else "⚠️".

(** The collaborators of a run: the identity provider and the library
    functions the model does not look into. *)
Class Environment : Type := {
  (** the provider's answer to the last request of a history *)
  server : list request -> reply;
  (** [json.loads]; [None] when it raises [JSONDecodeError] *)
  json_loads : string -> option value;
  (** [json.dumps] *)
  json_dumps : value -> string;
  (** [repr] of a value that is not a string, as an f-string prints it *)
  py_repr : value -> string;
  (** [str(e)] of an exception *)
  exn_str : exn -> string
}.

Section Scripts.

Context {env : Environment}.

(** An f-string field [{v}]. *)
Definition py_str (v : value) : string :=
  match v with
  | VStr s => s
  | _ => py_repr v
  end.

Definition loads (text : string) : M value :=
  match json_loads text with
  | Some v => ret v
  | None => lift (Err JSONDecodeError)
  end.

(** [urllib.request.urlopen(req, timeout=...)] followed by reading the
    body: the request goes out; a status outside 2xx is raised as
    [HTTPError] by the library's error processor; a connection that cannot
    be made is wrapped by the library in [URLError]; the failures while
    waiting for the answer are not wrapped: [TimeoutError] from a silent
    provider, [RemoteDisconnected] from a closed connection. *)
Definition urlopen (req : request) (timeout : Z) : M (Z * string) :=
  fun st =>
    let st' := sending st req in
    match server (sent st') with
    | Reply status content =>
        if (200 <=? status) && (status <? 300)
        then (Ok (status, content), st')
        else (Raise (HTTPError status content), st')
    | NoReply reason => (Raise (URLError reason), st')
    | Silent => (Raise TimeoutError, st')
    | Closed => (Raise RemoteDisconnected, st')
    end.

(** [api(method, path, data=None, token=None)]; the two scripts differ in
    the timeout only. *)
Definition api_headers (token : value) : list (string * string) :=
  let headers := [("Content-Type", "application/json")] in
  if truthy token
  then (headers ++ [("Authorization", ("Bearer " ++ py_str token)%string)])%list
  else headers.

Definition api_body (payload : value) : option string :=
  if truthy payload then Some (json_dumps payload) else None.

Definition api_request (method path : string) (payload token : value)
  : request :=
  Request (KC ++ path) (api_body payload) (api_headers token) (Some method).

Definition api (timeout : Z) (method path : string) (payload token : value)
  : M (Z * value) :=
  let req := api_request method path payload token in
  try_except
    ('(status, content) <- urlopen req timeout ;;
     if negb (String.eqb content "")
     then (v <- loads content ;; ret (status, v))
     else ret (status, VNone))
    (fun e =>
       match e with
       | HTTPError code body => Some (ret (code, VStr body))
       | _ => None
       end).

(** [get_token] of the first script. *)
Definition admin_token_request : request :=
  Request (KC ++ "/realms/master/protocol/openid-connect/token")
          (Some "grant_type=password&client_id=admin-cli&username=admin&password=admin")
          [] None.

Definition get_token : M value :=
  '(_, content) <- urlopen admin_token_request 10 ;;
  resp <- loads content ;;
  lift (getitem_key resp "access_token").

(** [get_admin_token] of the second script has the same body. *)
Definition get_admin_token : M value := get_token.

(** Lines 82-84 / 235-237: the claims of an access token. *)
Definition claims_segment (tok : value) : result string :=
  rbind (py_split_dot tok) (fun parts =>
    match nth_error parts 1 with
    | Some payload => Val payload
    | None => Err IndexError
    end).

Definition b64decode (s : string) : result string :=
  match Base64.b64decode s with
  | inr bytes => Val bytes
  | inl why => Err (BinasciiError why)
  end.

Definition decode_claims (tok : value) : M value :=
  payload <- lift (claims_segment tok) ;;
  bytes <- lift (b64decode (pad_segment payload)) ;;
  loads bytes.

(** The password grant of the verification steps. *)
Definition token_request (form : string) : request :=
  Request (KC ++ "/realms/" ++ REALM ++ "/protocol/openid-connect/token")
          (Some form) [] None.

Definition fetch_access_token (form : string) : M value :=
  '(_, content) <- urlopen (token_request form) 10 ;;
  resp <- loads content ;;
  lift (getitem_key resp "access_token").

Definition nl : string := String "010"%char EmptyString.

Definition realm_path (suffix : string) : string :=
  "/admin/realms/" ++ REALM ++ suffix.

(** [[{'id': role_id, 'name': name}]] *)
Definition role_mapping (role_id : value) (name : string) : value :=
  VList [VDict [("id", role_id); ("name", VStr name)]].

(* ---------------------------------------------------------------- *)
(** *** [scripts/fix-keycloak-client.py] *)

Definition fix_api := api 10.

(** Lines 39-45. *)
Definition fix_find_client (token : value) : M (value * value) :=
  print "2. Finding crm-web client..." ;;
  '(code, clients) <-
     fix_api "GET" (realm_path "/clients?clientId=crm-web") VNone token ;;
  (if negb (truthy clients)
   then (print "   ❌ Client not found" ;; sys_exit 1)
   else ret tt) ;;
  client0 <- lift (getitem_int clients 0) ;;
  client_uuid <- lift (getitem_key client0 "id") ;;
  print ("   ✅ Client UUID: " ++ py_str client_uuid) ;;
  ret (clients, client_uuid).

(** Lines 48-54. *)
Definition fix_update_client (token clients client_uuid : value) : M unit :=
  print "3. Updating client config..." ;;
  client_data <- lift (getitem_int clients 0) ;;
  client_data <- lift (setitem_key client_data "fullScopeAllowed" (VBool true)) ;;
  client_data <-
    lift (setitem_key client_data "directAccessGrantsEnabled" (VBool true)) ;;
  client_data <- lift (setitem_key client_data "publicClient" (VBool true)) ;;
  '(code, _) <-
     fix_api "PUT" (realm_path ("/clients/" ++ py_str client_uuid))
             client_data token ;;
  print ("   " ++ (if code =? 204 then "✅" else "❌")
         ++ " Update status: " ++ format_int code).

(** Lines 57-63. *)
Definition fix_find_user (token : value) : M value :=
  print "4. Finding admin@crm.local..." ;;
  '(code, users) <-
     fix_api "GET" (realm_path "/users?username=admin@crm.local") VNone token ;;
  (if negb (truthy users)
   then (print "   ❌ User not found" ;; sys_exit 1)
   else ret tt) ;;
  user0 <- lift (getitem_int users 0) ;;
  user_id <- lift (getitem_key user0 "id") ;;
  print ("   ✅ User ID: " ++ py_str user_id) ;;
  ret user_id.

(** Lines 66-69. *)
Definition fix_get_role (token : value) : M value :=
  print "5. Getting owner_admin role..." ;;
  '(code, role) <- fix_api "GET" (realm_path "/roles/owner_admin") VNone token ;;
  role_id <- lift (getitem_key role "id") ;;
  print ("   ✅ Role ID: " ++ py_str role_id) ;;
  ret role_id.

(** Lines 72-75; [code in (204, None)] holds of an integer [code] exactly
    when it is 204. *)
Definition fix_assign_role (token user_id role_id : value) : M unit :=
  print "6. Assigning owner_admin to admin@crm.local..." ;;
  '(code, _) <-
     fix_api "POST"
             (realm_path ("/users/" ++ py_str user_id ++ "/role-mappings/realm"))
             (role_mapping role_id "owner_admin") token ;;
  print ("   " ++ (if code =? 204 then "✅" else "⚠️")
         ++ " Assign status: " ++ format_int code).

(** Lines 91-95: the set the role is looked up in. *)
Definition fix_all_roles (realm_access realm_roles : value) : result pyset :=
  rbind (contains_str "roles" realm_access) (fun has_roles =>
  rbind (if has_roles
         then rbind (getitem_key realm_access "roles") (set_update [])
         else Val []) (fun all_roles =>
  if truthy realm_roles then set_update all_roles realm_roles
  else Val all_roles)).

(** Lines 86-101: the checks on the decoded claims. *)
Definition fix_check_roles (decoded : value) : M bool :=
  realm_access <- lift (py_get decoded "realm_access" (VDict [])) ;;
  realm_roles <- lift (py_get decoded "realm_roles" (VList [])) ;;
  shown <- lift (py_get realm_access "roles" (VStr "MISSING")) ;;
  print ("   realm_access.roles: " ++ py_str shown) ;;
  print ("   realm_roles: " ++ py_str (py_or realm_roles (VStr "MISSING"))) ;;
  all_roles <- lift (fix_all_roles realm_access realm_roles) ;;
  if set_contains_str "owner_admin" all_roles
  then (print "   ✅ owner_admin found in token!" ;; ret true)
  else (print "   ❌ owner_admin NOT in token" ;;
        claims <- lift (py_keys decoded) ;;
        print ("   All claims: " ++ py_str claims) ;;
        ret false).

(** Lines 78-101: no handler surrounds them. *)
Definition fix_verify : M bool :=
  print "7. Verifying token has roles..." ;;
  tok <- fetch_access_token
           "grant_type=password&client_id=crm-web&username=admin@crm.local&password=admin123" ;;
  decoded <- decode_claims tok ;;
  fix_check_roles decoded.

(** Lines 34-36. *)
Definition fix_admin_session : M value :=
  print "1. Getting admin token..." ;;
  token <- get_token ;;
  print "   ✅ Got token" ;;
  ret token.

Definition fix_main : M unit :=
  token <- fix_admin_session ;;
  '(clients, client_uuid) <- fix_find_client token ;;
  fix_update_client token clients client_uuid ;;
  user_id <- fix_find_user token ;;
  role_id <- fix_get_role token ;;
  fix_assign_role token user_id role_id ;;
  fix_verify ;;
  print (nl ++ "✅ Done!").

(* ---------------------------------------------------------------- *)
(** *** [scripts/setup-keycloak-multitenant.py] *)

Definition setup_api := api 15.

Definition NEW_ROLES : list string :=
  ["super_admin"; "company_admin"; "company_member"].

Definition OLD_ROLES : list string :=
  ["owner_admin"; "dispatcher"; "technician"; "accountant"; "viewer"].

(** Lines 63-68: body of the creation loop. *)
Definition create_role (token : value) (role : string) : M unit :=
  '(code, resp) <-
     setup_api "POST" (realm_path "/roles")
               (VDict [("name", VStr role);
                       ("description", VStr ("CRM " ++ role ++ " role"))])
               token ;;
  if code =? 409
  then print ("   " ++ role ++ ": already exists")
  else print ("   " ++ role ++ ": " ++ status_icon code ++ " created").

(** Lines 75-79: body of the removal loop. *)
Definition delete_role (token : value) (role : string) : M unit :=
  '(code, resp) <-
     setup_api "DELETE" (realm_path ("/roles/" ++ role)) VNone token ;;
  if code =? 404
  then print ("   " ++ role ++ ": not found (skip)")
  else print ("   " ++ role ++ ": " ++ status_icon code ++ " removed").

Definition password_credential (password : string) : value :=
  VList [VDict [("type", VStr "password"); ("value", VStr password);
                ("temporary", VBool false)]].

Definition SUPER_ADMIN : value :=
  VDict [("username", VStr "superadmin");
         ("email", VStr "superadmin@crm.local");
         ("firstName", VStr "Super");
         ("lastName", VStr "Admin");
         ("enabled", VBool true);
         ("emailVerified", VBool true);
         ("credentials", password_credential "super123")].

Definition COMPANY_ADMIN : value :=
  VDict [("username", VStr "office@bostonmasters.com");
         ("email", VStr "office@bostonmasters.com");
         ("firstName", VStr "Boston");
         ("lastName", VStr "Masters Admin");
         ("enabled", VBool true);
         ("emailVerified", VBool true);
         ("credentials", password_credential "boston123");
         ("attributes", VDict [("company_id", VList [VStr "1"])])].

(** Lines 93-97 and 121-125. *)
Definition create_user (token user : value) (label : string) : M unit :=
  '(code, resp) <- setup_api "POST" (realm_path "/users") user token ;;
  if code =? 409
  then print ("   " ++ label ++ ": already exists")
  else print ("   " ++ label ++ ": " ++ status_icon code ++ " created").

(** Lines 103-106, 131-134 and 205-208. *)
Definition assign_role (token user_id : value) (role : string) : M unit :=
  '(code, role_obj) <-
     setup_api "GET" (realm_path ("/roles/" ++ role)) VNone token ;;
  role_id <- lift (getitem_key role_obj "id") ;;
  '(code, _) <-
     setup_api "POST"
               (realm_path ("/users/" ++ py_str user_id ++ "/role-mappings/realm"))
               (role_mapping role_id role) token ;;
  print ("   " ++ role ++ " role assigned: " ++ status_icon code).

(** Lines 138-139 and 219-220: the mapping stored under ['attributes'] is
    the object the second assignment mutates. *)
Definition with_company_id (user_data : value) : result value :=
  rbind (py_get user_data "attributes" (VDict [])) (fun attributes =>
  rbind (setitem_key user_data "attributes" attributes) (fun user_data =>
  rbind (getitem_key user_data "attributes") (fun attributes =>
  rbind (setitem_key attributes "company_id" (VList [VStr "1"]))
        (fun attributes =>
  setitem_key user_data "attributes" attributes)))).

(** Lines 137-141 and 218-222. *)
Definition set_company_id (token users user_id : value) : M unit :=
  user_data <- lift (getitem_int users 0) ;;
  user_data <- lift (with_company_id user_data) ;;
  '(code, _) <-
     setup_api "PUT" (realm_path ("/users/" ++ py_str user_id)) user_data token ;;
  print ("   company_id attribute set: " ++ status_icon code).

(** Lines 83-106. *)
Definition setup_super_admin (token : value) : M unit :=
  print (nl ++ "── 3. Create super_admin user ──") ;;
  create_user token SUPER_ADMIN "superadmin@crm.local" ;;
  '(code, users) <-
     setup_api "GET" (realm_path "/users?username=superadmin&exact=true")
               VNone token ;;
  if truthy users
  then (user0 <- lift (getitem_int users 0) ;;
        sa_user_id <- lift (getitem_key user0 "id") ;;
        assign_role token sa_user_id "super_admin")
  else ret tt.

(** Lines 110-141. *)
Definition setup_company_admin (token : value) : M unit :=
  print (nl ++ "── 4. Create company_admin user ──") ;;
  create_user token COMPANY_ADMIN "office@bostonmasters.com" ;;
  '(code, users) <-
     setup_api "GET"
               (realm_path "/users?username=office@bostonmasters.com&exact=true")
               VNone token ;;
  if truthy users
  then (user0 <- lift (getitem_int users 0) ;;
        ca_user_id <- lift (getitem_key user0 "id") ;;
        assign_role token ca_user_id "company_admin" ;;
        set_company_id token users ca_user_id)
  else ret tt.

Definition MAPPER : value :=
  VDict [("name", VStr "company_id");
         ("protocol", VStr "openid-connect");
         ("protocolMapper", VStr "oidc-usermodel-attribute-mapper");
         ("config",
          VDict [("user.attribute", VStr "company_id");
                 ("claim.name", VStr "company_id");
                 ("jsonType.label", VStr "String");
                 ("id.token.claim", VStr "true");
                 ("access.token.claim", VStr "true");
                 ("userinfo.token.claim", VStr "true");
                 ("multivalued", VStr "false")])].

(** Lines 145-168: the client list is indexed without a test. *)
Definition setup_mapper (token : value) : M unit :=
  print (nl ++ "── 5. Add company_id protocol mapper ──") ;;
  '(code, clients) <-
     setup_api "GET" (realm_path "/clients?clientId=crm-web") VNone token ;;
  client0 <- lift (getitem_int clients 0) ;;
  client_uuid <- lift (getitem_key client0 "id") ;;
  '(code, resp) <-
     setup_api "POST"
               (realm_path ("/clients/" ++ py_str client_uuid
                            ++ "/protocol-mappers/models"))
               MAPPER token ;;
  if code =? 409
  then print "   company_id mapper: already exists"
  else print ("   company_id mapper: " ++ status_icon code ++ " created").

Definition realm_update : Dict.t :=
  [("accessTokenLifespan", VInt 900);
   ("ssoSessionIdleTimeout", VInt 1800);
   ("ssoSessionMaxLifespan", VInt 43200);
   ("offlineSessionIdleTimeout", VInt 2592000);
   ("passwordPolicy", VStr "length(8) and maxLength(128) and notUsername");
   ("bruteForceProtected", VBool true);
   ("maxFailureWaitSeconds", VInt 900);
   ("failureFactor", VInt 5);
   ("permanentLockout", VBool false)].

(** Lines 172-196. *)
Definition setup_realm_policy (token : value) : M unit :=
  print (nl ++ "── 6. Configure realm session/password policy ──") ;;
  '(code, realm) <- setup_api "GET" (realm_path "") VNone token ;;
  merged <- lift (dict_unpack_merge realm realm_update) ;;
  '(code, _) <- setup_api "PUT" (realm_path "") merged token ;;
  print ("   Realm policies: " ++ status_icon code ++ " updated") ;;
  print "     Access token: 15 min" ;;
  print "     SSO idle: 30 min" ;;
  print "     SSO max: 12 hours" ;;
  print "     Refresh: 30 days" ;;
  print "     Password: min 8 chars, not username".

(** Lines 211-215: the answer of the removal is dropped. *)
Definition remove_old_owner_admin (token test_user_id : value) : M unit :=
  '(code, old_role) <-
     setup_api "GET" (realm_path "/roles/owner_admin") VNone token ;;
  if code =? 200
  then (old_id <- lift (getitem_key old_role "id") ;;
        setup_api "DELETE"
                  (realm_path ("/users/" ++ py_str test_user_id
                               ++ "/role-mappings/realm"))
                  (role_mapping old_id "owner_admin") token ;;
        print "   old owner_admin removed")
  else ret tt.

(** Lines 200-224. *)
Definition setup_test_user (token : value) : M unit :=
  print (nl ++ "── 7. Update existing admin@crm.local test user ──") ;;
  '(code, users) <-
     setup_api "GET" (realm_path "/users?username=admin@crm.local") VNone token ;;
  if truthy users
  then (user0 <- lift (getitem_int users 0) ;;
        test_user_id <- lift (getitem_key user0 "id") ;;
        assign_role token test_user_id "company_admin" ;;
        remove_old_owner_admin token test_user_id ;;
        set_company_id token users test_user_id)
  else print "   admin@crm.local not found (skip)".

(** Lines 239 and 263: [decoded.get('realm_access', {}).get('roles', [])]. *)
Definition token_roles (decoded : value) : result value :=
  rbind (py_get decoded "realm_access" (VDict [])) (fun realm_access =>
  py_get realm_access "roles" (VList [])).

(** The list an f-string shows: roles not starting with ["default"]. *)
Definition shown_roles (roles : value) : result value :=
  rbind (py_iter roles) (fun items =>
  rbind (filter_not_startswith "default" items) (fun kept =>
  Val (VList kept))).

(** The three verdicts of lines 245-250. *)
Inductive verdict : Type :=
| Verified
| RolesOnly
| RoleMissing.

(** Lines 239-250: the checks on the decoded claims. *)
Definition check_admin_claims (decoded : value) : M verdict :=
  roles <- lift (token_roles decoded) ;;
  company_id <- lift (py_get decoded "company_id" VNone) ;;
  print "   admin@crm.local token:" ;;
  shown <- lift (shown_roles roles) ;;
  print ("     roles: " ++ py_str shown) ;;
  print ("     company_id: " ++ py_str company_id) ;;
  has_role <- lift (contains_str "company_admin" roles) ;;
  if has_role && truthy company_id
  then (print "   ✅ Token verified — roles + company_id present!" ;;
        ret Verified)
  else if has_role
  then (print "   ⚠️ Roles OK but company_id missing from token" ;;
        ret RolesOnly)
  else (print "   ❌ company_admin not in token roles" ;; ret RoleMissing).

(** Lines 234-250: the body of the first [try]. *)
Definition verify_admin_body : M verdict :=
  tok <- fetch_access_token
           "grant_type=password&client_id=crm-web&username=admin%40crm.local&password=admin123" ;;
  decoded <- decode_claims tok ;;
  check_admin_claims decoded.

(** [except Exception as e]: every exception of the model is covered. *)
Definition report_failure (prefix : string) (e : exn) : option (M (option verdict)) :=
  Some (print (prefix ++ exn_str e) ;; ret None).

(** Lines 233-252. *)
Definition verify_admin : M (option verdict) :=
  try_except (v <- verify_admin_body ;; ret (Some v))
             (report_failure "   ❌ Token test failed: ").

(** Lines 263-270: the checks on the decoded claims. *)
Definition check_superadmin_claims (decoded : value) : M verdict :=
  roles <- lift (token_roles decoded) ;;
  print "   superadmin token:" ;;
  shown <- lift (shown_roles roles) ;;
  print ("     roles: " ++ py_str shown) ;;
  has_role <- lift (contains_str "super_admin" roles) ;;
  if has_role
  then (print "   ✅ super_admin token verified!" ;; ret Verified)
  else (print "   ❌ super_admin not in token roles" ;; ret RoleMissing).

(** Lines 258-270: the body of the second [try]. *)
Definition verify_superadmin_body : M verdict :=
  tok <- fetch_access_token
           "grant_type=password&client_id=crm-web&username=superadmin&password=super123" ;;
  decoded <- decode_claims tok ;;
  check_superadmin_claims decoded.

(** Lines 257-272. *)
Definition verify_superadmin : M (option verdict) :=
  try_except (v <- verify_superadmin_body ;; ret (Some v))
             (report_failure "   ❌ Superadmin token test failed: ").

(** Lines 274-280. *)
Definition setup_summary : M unit :=
  print (nl ++ Text.str_mul "="%char 60) ;;
  print "  ✅ Keycloak multi-tenant setup complete!" ;;
  print (Text.str_mul "="%char 60) ;;
  print (nl ++ "  Users created:") ;;
  print "    superadmin@crm.local / super123  (super_admin)" ;;
  print "    office@bostonmasters.com / boston123  (company_admin)" ;;
  print "    admin@crm.local / admin123  (company_admin, test)".

(** Lines 51-79: banner, admin token, role creation and removal. *)
Definition setup_roles : M value :=
  print (Text.str_mul "="%char 60) ;;
  print "  Keycloak Multi-tenant CRM Setup" ;;
  print (Text.str_mul "="%char 60) ;;
  token <- get_admin_token ;;
  print (nl ++ "✅ Admin token acquired") ;;
  print (nl ++ "── 1. Create realm roles ──") ;;
  for_each NEW_ROLES (create_role token) ;;
  print (nl ++ "── 2. Remove old roles ──") ;;
  for_each OLD_ROLES (delete_role token) ;;
  ret token.

(** Lines 228-272. *)
Definition setup_verify : M unit :=
  print (nl ++ "── 8. Verify token claims ──") ;;
  verify_admin ;;
  verify_superadmin ;;
  ret tt.

(** Lines 51-141: everything before the client lookup. *)
Definition setup_users : M value :=
  token <- setup_roles ;;
  setup_super_admin token ;;
  setup_company_admin token ;;
  ret token.

Definition setup_main : M unit :=
  token <- setup_users ;;
  setup_mapper token ;;
  setup_realm_policy token ;;
  setup_test_user token ;;
  setup_verify ;;
  setup_summary.

End Scripts.

(* ------------------------------------------------------------------ *)
(** ** Reference notions used in the statements *)

(** Number of characters of [s] that belong to the standard alphabet. *)
Fixpoint count_data (s : string) : Z :=
  match s with
  | EmptyString => 0
  | String c rest =>
      (if Base64.table_a2b_base64 c <? 64 then 1 else 0) + count_data rest
  end.

(** The two characters base64url has in place of ['+'] and ['/']. *)
Definition is_url_only (c : ascii) : bool :=
  Ascii.eqb c "-"%char || Ascii.eqb c "_"%char.

Fixpoint count_url_only (s : string) : Z :=
  match s with
  | EmptyString => 0
  | String c rest => (if is_url_only c then 1 else 0) + count_url_only rest
  end.

Definition has_url_only (s : string) : bool :=
  Text.mem_char "-"%char s || Text.mem_char "_"%char s.

(** A decoded token is well formed when [realm_access], if present, is a
    mapping whose [roles], if present, is a sequence of strings, and the
    legacy [realm_roles] claim, if present, is a sequence of strings.  The
    functions below read the two sequences off such a token. *)
Fixpoint role_names (items : list value) : option (list string) :=
  match items with
  | [] => Some []
  | VStr s :: rest => option_map (cons s) (role_names rest)
  | _ :: _ => None
  end.

Definition claim_roles (claim : option value) : option (list string) :=
  match claim with
  | None => Some []
  | Some (VList items) => role_names items
  | Some _ => None
  end.

Definition realm_access_roles (decoded : Dict.t) : option (list string) :=
  match Dict.get "realm_access" decoded with
  | None => Some []
  | Some (VDict realm_access) => claim_roles (Dict.get "roles" realm_access)
  | Some _ => None
  end.

Definition legacy_realm_roles (decoded : Dict.t) : option (list string) :=
  claim_roles (Dict.get "realm_roles" decoded).



(** Text written in the base64url alphabet of JWT compact serialization. *)
Definition is_base64url_text (s : string) : bool :=
  Text.str_forallb
    (fun c => Base64.table_a2b_base64 (Base64.urlsafe_translate c) <? 64) s.

(** The statuses [urlopen] returns rather than raises. *)
Definition success (status : Z) : Prop := 200 <= status < 300.

(** The attribute mapping of a fetched user: empty when the key is
    missing. *)
Definition existing_attributes (user : Dict.t) : option Dict.t :=
  match Dict.get "attributes" user with
  | None => Some []
  | Some (VDict attributes) => Some attributes
  | Some _ => None
  end.

(** A computation that never ends in [sys.exit]. *)
Definition never_exits {A : Type} (m : M A) : Prop :=
  forall st n st', m st <> (Exit n, st').

(** The base64 encoding of RFC 4648 (standard alphabet) without its
    closing pads: the text a token must carry for the scripts to read the
    bytes back. *)
Module Encode.

(** The character of a six-bit value. *)
Definition alphabet (v : Z) : ascii :=
  if v <? 26 then Text.chr (v + 65)
  else if v <? 52 then Text.chr (v + 71)
  else if v <? 62 then Text.chr (v - 4)
  else if v =? 62 then "+"%char
  else "/"%char.

(** The four six-bit values of three bytes. *)
Definition sextet1 (x : Z) : Z := Z.shiftr x 2.
Definition sextet2 (x y : Z) : Z := Z.lor (Z.shiftl (Z.land x 3) 4) (Z.shiftr y 4).
Definition sextet3 (y z : Z) : Z := Z.lor (Z.shiftl (Z.land y 15) 2) (Z.shiftr z 6).
Definition sextet4 (z : Z) : Z := Z.land z 63.

Fixpoint b64encode_unpadded (bytes : string) : string :=
  match bytes with
  | EmptyString => EmptyString
  | String b1 EmptyString =>
      let x := Text.code b1 in
      String (alphabet (sextet1 x)) (String (alphabet (sextet2 x 0)) EmptyString)
  | String b1 (String b2 EmptyString) =>
      let x := Text.code b1 in
      let y := Text.code b2 in
      String (alphabet (sextet1 x))
        (String (alphabet (sextet2 x y))
           (String (alphabet (sextet3 y 0)) EmptyString))
  | String b1 (String b2 (String b3 rest)) =>
      let x := Text.code b1 in
      let y := Text.code b2 in
      let z := Text.code b3 in
      String (alphabet (sextet1 x))
        (String (alphabet (sextet2 x y))
           (String (alphabet (sextet3 y z))
              (String (alphabet (sextet4 z)) (b64encode_unpadded rest))))
  end.

Definition is_sextet (v : Z) : bool := (0 <=? v) && (v <? 64).

(** The values of a byte, for exhaustive checks. *)
Definition byte_values : list Z := map Z.of_nat (seq 0 256).

Definition sextet_values : list Z := map Z.of_nat (seq 0 64).

End Encode.

(** A computation that sends no request. *)
Definition sends_nothing {A : Type} (m : M A) : Prop :=
  forall st, sent (snd (m st)) = sent st.

(** A computation that, if it ends in [sys.exit], does so with [status]. *)
Definition exits_only_with {A : Type} (status : Z) (m : M A) : Prop :=
  forall st n st', m st = (Exit n, st') -> n = status.

(** A provider that answers every call with an HTTP response whose body,
    when the status is a success and the body is not empty, is JSON. *)
Definition answers_every_call {env : Environment} : Prop :=
  forall history,
    exists status content,
      server history = Reply status content
      /\ (success status -> content <> "" -> json_loads content <> None).

(** Text made of characters of the standard base64 alphabet only. *)
Definition in_alphabet (s : string) : bool :=
  Text.str_forallb (fun c => Base64.table_a2b_base64 c <? 64) s.

(** The characters the decoder looks at: the alphabet and the pad. *)
Definition is_significant (c : ascii) : bool :=
  (Base64.table_a2b_base64 c <? 64) || Ascii.eqb c Base64.BASE64_PAD.

(** The characters that matter to [base64.b64decode]: those the decoder
    looks at, and those that are not ASCII, which make the call fail. *)
Definition is_read (c : ascii) : bool :=
  is_significant c || negb (Base64.is_ascii c).

(** The requests of the two role loops. *)
Definition create_role_request {env : Environment} (token : value)
           (role : string) : request :=
  api_request "POST" (realm_path "/roles")
              (VDict [("name", VStr role);
                      ("description", VStr ("CRM " ++ role ++ " role"))])
              token.

Definition delete_role_request {env : Environment} (token : value)
           (role : string) : request :=
  api_request "DELETE" (realm_path ("/roles/" ++ role)) VNone token.


(* ------------------------------------------------------------------ *)
(** ** Concrete collaborators for the examples *)

Module Demo.

Definition quoted (s : string) : string :=
  String "034"%char (s ++ String "034"%char EmptyString).

(** A compact JSON printer (no escapes: the examples need none). *)
Fixpoint dumps (v : value) : string :=
  match v with
  | VNone => "null"
  | VBool true => "true"
  | VBool false => "false"
  | VInt n => format_int n
  | VStr s => quoted s
  | VList items =>
      "[" ++ (fix go (l : list value) : string :=
                match l with
                | [] => ""
                | [x] => dumps x
                | x :: rest => dumps x ++ ", " ++ go rest
                end) items ++ "]"
  | VDict entries =>
      "{" ++ (fix go (l : list (string * value)) : string :=
                match l with
                | [] => ""
                | [(k, x)] => quoted k ++ ": " ++ dumps x
                | (k, x) :: rest => quoted k ++ ": " ++ dumps x ++ ", " ++ go rest
                end) entries ++ "}"
  end.

Definition token_doc : value := VDict [("access_token", VStr "admin-token")].
Definition clients_doc : value :=
  VList [VDict [("id", VStr "c1"); ("clientId", VStr "crm-web")]].
Definition users_doc : value :=
  VList [VDict [("id", VStr "u1"); ("username", VStr "admin@crm.local")]].
Definition role_doc : value :=
  VDict [("id", VStr "r1"); ("name", VStr "owner_admin")].

Definition documents : list value :=
  [token_doc; clients_doc; users_doc; role_doc; VList []; VDict []].

(** A parser for the documents above. *)
Definition loads (text : string) : option value :=
  find (fun doc => String.eqb (dumps doc) text) documents.

Definition str_of_exn (e : exn) : string :=
  match e with
  | HTTPError code _ => "HTTP Error " ++ format_int code
  | URLError reason => "<urlopen error " ++ reason ++ ">"
  | TimeoutError => "timed out"
  | RemoteDisconnected => "Remote end closed connection without response"
  | JSONDecodeError => "Expecting value"
  | BinasciiError _ => "Incorrect padding"
  | IndexError => "list index out of range"
  | KeyError key => key
  | TypeError => "unsupported operand"
  | AttributeError => "object has no attribute"
  end.

Definition last_request (history : list request) : option request :=
  last (map Some history) None.

Definition master_token_url : string :=
  KC ++ "/realms/master/protocol/openid-connect/token".

Definition is_method (r : request) (m : string) : bool :=
  match method r with
  | Some m' => String.eqb m m'
  | None => false
  end.

(** A realm already provisioned, without users or clients: creations
    conflict, removals find nothing, lists are empty. *)
Definition provisioned (r : request) : reply :=
  if String.eqb (full_url r) master_token_url then Reply 200 (dumps token_doc)
  else if is_method r "POST" then Reply 409 "Conflict"
  else if is_method r "DELETE" then Reply 404 "Not Found"
  else if is_method r "PUT" then Reply 204 ""
  else if is_method r "GET" then Reply 200 "[]"
  else Reply 401 "Unauthorized".

(** A realm with the client, the user and the role of the first script,
    that refuses the password grant of [admin@crm.local]. *)
Definition grant_refused (r : request) : reply :=
  if String.eqb (full_url r) master_token_url then Reply 200 (dumps token_doc)
  else if is_method r "PUT" || is_method r "POST" then Reply 204 ""
  else if is_method r "GET" then
    if Text.is_substring "/clients?" (full_url r) then Reply 200 (dumps clients_doc)
    else if Text.is_substring "/users?" (full_url r) then Reply 200 (dumps users_doc)
    else Reply 200 (dumps role_doc)
  else Reply 401 "Unauthorized".

(** An admin interface that refuses every call after the admin login. *)
Definition forbidden (r : request) : reply :=
  if String.eqb (full_url r) master_token_url then Reply 200 (dumps token_doc)
  else Reply 403 "Forbidden".

Definition environment (route : request -> reply) : Environment :=
  {| server := fun history =>
                 match last_request history with
                 | Some r => route r
                 | None => NoReply "no request"
                 end;
     json_loads := loads;
     json_dumps := dumps;
     py_repr := dumps;
     exn_str := str_of_exn |}.

Definition provisioned_env : Environment := environment provisioned.
Definition grant_refused_env : Environment := environment grant_refused.
Definition forbidden_env : Environment := environment forbidden.

Definition start : state := State [] [].

Definition admin_token : value := VStr "admin-token".


(** A fetched user with an unrelated attribute. *)
Definition user_with_locale : value :=
  VDict [("id", VStr "u1");
         ("username", VStr "admin@crm.local");
         ("attributes", VDict [("locale", VList [VStr "en"])])].

(** A token whose only trace of [company_admin] is the legacy claim. *)
Definition legacy_only_claims : Dict.t :=
  [("realm_access", VDict [("roles", VList [VStr "offline_access"])]);
   ("realm_roles", VList [VStr "company_admin"])].

(** A provider that fails every call. *)
Definition failing_env : Environment :=
  {| server := fun _ => Reply 500 "Internal Server Error";
     json_loads := loads;
     json_dumps := dumps;
     py_repr := dumps;
     exn_str := str_of_exn |}.

(** A realm where roles are found and every change is refused. *)
Definition read_only (r : request) : reply :=
  if String.eqb (full_url r) master_token_url then Reply 200 (dumps token_doc)
  else if is_method r "GET" then
    if Text.is_substring "/clients?" (full_url r) then Reply 200 (dumps clients_doc)
    else if Text.is_substring "/users?" (full_url r) then Reply 200 (dumps users_doc)
    else Reply 200 (dumps role_doc)
  else Reply 403 "Forbidden".

Definition read_only_env : Environment := environment read_only.

(** A realm where the client is found and every creation conflicts. *)
Definition everything_exists (r : request) : reply :=
  if String.eqb (full_url r) master_token_url then Reply 200 (dumps token_doc)
  else if is_method r "GET" then Reply 200 (dumps clients_doc)
  else Reply 409 "Conflict".

Definition everything_exists_env : Environment := environment everything_exists.

End Demo.

(* ------------------------------------------------------------------ *)

(* ------------------------------------------------------------------ *)
(** ** Properties of the decoder *)

Section Decoder.

Import Base64.

Lemma len_app (a b : string) : Text.len (a ++ b) = Text.len a + Text.len b.
Proof.
  unfold Text.len. induction a as [|c a IH]; simpl String.length; lia.
Qed.

Lemma len_snoc (s : string) (c : ascii) : Text.len (snoc s c) = Text.len s + 1.
Proof. unfold snoc. rewrite len_app. reflexivity. Qed.

Lemma table_range (c : ascii) :
  0 <= table_a2b_base64 c < 64 \/ table_a2b_base64 c = 255.
Proof.
  unfold table_a2b_base64.
  repeat match goal with
         | |- context [if ?b then _ else _] => destruct b eqn:?
         end; try lia.
  all: rewrite ?andb_true_iff in *; lia.
Qed.

(** Characters before any pad: the loop consumes them all; with [n] data
    characters read so far it has written [3n/4] bytes and stands at
    position [n mod 4]. *)
Lemma a2b_loop_data (s rest : string) :
  Text.mem_char BASE64_PAD s = false ->
  forall n quad_pos leftchar bin_data,
    0 <= n -> quad_pos = n mod 4 -> Text.len bin_data = 3 * n / 4 ->
    exists leftchar' bin_data',
      a2b_loop (s ++ rest) quad_pos leftchar 0 bin_data
      = a2b_loop rest ((n + count_data s) mod 4) leftchar' 0 bin_data'
      /\ Text.len bin_data' = 3 * (n + count_data s) / 4.
Proof.
  induction s as [|c s IH]; intros Hpad n q lc out Hn Hq Hlen.
  - simpl. exists lc, out. rewrite Z.add_0_r. subst q. auto.
  - cbn [Text.mem_char] in Hpad. apply orb_false_iff in Hpad as [Hc Hs].
    rewrite Ascii.eqb_sym in Hc.
    cbn [append a2b_loop count_data]. rewrite Hc.
    destruct (table_range c) as [Hv|Hv].
    + replace (64 <=? table_a2b_base64 c) with false by lia.
      replace (table_a2b_base64 c <? 64) with true by lia.
      assert (Hq4 : 0 <= q < 4) by (subst q; apply Z.mod_pos_bound; lia).
      destruct (q =? 0) eqn:E0; [|destruct (q =? 1) eqn:E1;
                                   [|destruct (q =? 2) eqn:E2]].
      all: match goal with
           | |- context [a2b_loop _ ?q' ?lc' 0 ?out'] =>
               destruct (IH Hs (n + 1) q' lc' out') as (lc2 & out2 & Heq & Hl)
           end.
      all: try lia.
      all: rewrite ?len_snoc, ?Hlen.
      all: try (subst q; clear - Hn E0 E1 E2 Hq4;
                Z.div_mod_to_equations; lia).
      all: try (subst q; clear - Hn E0 Hq4; Z.div_mod_to_equations; lia).
      all: try (subst q; clear - Hn E0 E1 Hq4; Z.div_mod_to_equations; lia).
      all: exists lc2, out2; rewrite Heq;
        replace (n + 1 + count_data s) with (n + (1 + count_data s)) in * by lia;
        auto.
    + replace (64 <=? table_a2b_base64 c) with true by lia.
      replace (table_a2b_base64 c <? 64) with false by lia.
      destruct (IH Hs n q lc out Hn Hq Hlen) as (lc2 & out2 & Heq & Hl).
      exists lc2, out2. rewrite Heq. auto.
Qed.

(** The run of pads that [pad_segment] appends: nothing more is written,
    and a decoder standing one character into a quad fails. *)
Lemma a2b_loop_pads (k : nat) :
  forall quad_pos leftchar pads bin_data bytes,
    a2b_loop (Text.repeat_nat BASE64_PAD k) quad_pos leftchar pads bin_data
    = inr bytes ->
    bytes = bin_data /\ quad_pos <> 1.
Proof.
  induction k as [|k IH]; intros q lc p out bytes; cbn [Text.repeat_nat a2b_loop].
  - destruct (q =? 0) eqn:E0; [intros [= <-]; split; [reflexivity|lia]|].
    destruct (q =? 1); discriminate.
  - rewrite Ascii.eqb_refl.
    destruct (2 <=? q) eqn:E2.
    + destruct (4 <=? q + (p + 1)).
      * intros [= <-]. split; [reflexivity|lia].
      * apply IH.
    + apply IH.
Qed.

(** Decoding an unpadded text followed by [k] pads. *)
Lemma a2b_base64_unpadded (s : string) (k : nat) (bytes : string) :
  Text.mem_char BASE64_PAD s = false ->
  a2b_base64 (s ++ Text.repeat_nat BASE64_PAD k) = inr bytes ->
  Text.len bytes = 3 * count_data s / 4 /\ count_data s mod 4 <> 1.
Proof.
  intros Hpad Hdec. unfold a2b_base64 in Hdec.
  destruct (a2b_loop_data s (Text.repeat_nat BASE64_PAD k) Hpad 0 0 0 EmptyString)
    as (lc & out & Heq & Hlen); try reflexivity.
  rewrite Heq in Hdec. apply a2b_loop_pads in Hdec as [-> Hq].
  rewrite Z.add_0_l in *. auto.
Qed.

Lemma count_data_nonneg (s : string) : 0 <= count_data s.
Proof.
  induction s as [|c s IH]; cbn [count_data]; [lia|].
  destruct (table_a2b_base64 c <? 64); lia.
Qed.

Lemma count_url_only_nonneg (s : string) : 0 <= count_url_only s.
Proof.
  induction s as [|c s IH]; cbn [count_url_only]; [lia|].
  destruct (is_url_only c); lia.
Qed.

Lemma has_url_only_count (s : string) :
  has_url_only s = true -> 1 <= count_url_only s.
Proof.
  unfold has_url_only. induction s as [|c s IH]; cbn [Text.mem_char count_url_only].
  - discriminate.
  - pose proof (count_url_only_nonneg s).
    unfold is_url_only. rewrite (Ascii.eqb_sym c "-"), (Ascii.eqb_sym c "_").
    destruct (Ascii.eqb "-" c); cbn [orb]; [lia|].
    destruct (Ascii.eqb "_" c); cbn [orb]; [lia|].
    intros H'. specialize (IH H'). lia.
Qed.

Lemma is_url_only_cases (c : ascii) :
  is_url_only c = true -> c = "-"%char \/ c = "_"%char.
Proof.
  unfold is_url_only. intros H. apply orb_true_iff in H as [H|H];
    apply Ascii.eqb_eq in H; auto.
Qed.

Lemma translate_other (c : ascii) :
  is_url_only c = false -> urlsafe_translate c = c.
Proof.
  unfold is_url_only, urlsafe_translate. intros H.
  apply orb_false_iff in H as [-> ->]. reflexivity.
Qed.

(** Translating to the standard alphabet turns every ['-'] and ['_'] into
    a data character and changes nothing else. *)
Lemma count_data_translate (s : string) :
  count_data (Text.str_map urlsafe_translate s)
  = count_data s + count_url_only s.
Proof.
  induction s as [|c s IH]; cbn [Text.str_map count_data count_url_only];
    [reflexivity|].
  rewrite IH. destruct (is_url_only c) eqn:E.
  - apply is_url_only_cases in E as [-> | ->];
      match goal with
      | |- context [table_a2b_base64 (urlsafe_translate ?c)] =>
          change (table_a2b_base64 (urlsafe_translate c) <? 64) with true;
          change (table_a2b_base64 c <? 64) with false
      end; cbv iota; lia.
  - rewrite (translate_other c E). cbv iota. lia.
Qed.

Lemma mem_pad_translate (s : string) :
  Text.mem_char BASE64_PAD (Text.str_map urlsafe_translate s)
  = Text.mem_char BASE64_PAD s.
Proof.
  induction s as [|c s IH]; cbn [Text.str_map Text.mem_char]; [reflexivity|].
  rewrite IH. f_equal. destruct (is_url_only c) eqn:E.
  - apply is_url_only_cases in E as [-> | ->]; reflexivity.
  - rewrite (translate_other c E). reflexivity.
Qed.

Lemma str_map_app (f : ascii -> ascii) (a b : string) :
  Text.str_map f (a ++ b) = Text.str_map f a ++ Text.str_map f b.
Proof. induction a as [|c a IH]; cbn; [reflexivity|]. now rewrite IH. Qed.

Lemma translate_pads (k : nat) :
  Text.str_map urlsafe_translate (Text.repeat_nat BASE64_PAD k)
  = Text.repeat_nat BASE64_PAD k.
Proof. induction k as [|k IH]; cbn; [reflexivity|]. now rewrite IH. Qed.

(** Characters outside the standard alphabet leave the decoder's state
    untouched: ['-'] and ['_'] can be deleted from any input. *)
Lemma a2b_loop_skips_url_only (s : string) :
  forall quad_pos leftchar pads bin_data,
    a2b_loop s quad_pos leftchar pads bin_data
    = a2b_loop (Text.str_filter (fun c => negb (is_url_only c)) s)
               quad_pos leftchar pads bin_data.
Proof.
  induction s as [|c s IH]; intros q lc p out; [reflexivity|].
  cbn [Text.str_filter]. destruct (is_url_only c) eqn:E; cbn [negb].
  - rewrite <- IH. apply is_url_only_cases in E as [-> | ->]; reflexivity.
  - cbn [a2b_loop]. now rewrite !IH.
Qed.

Lemma forallb_ascii_filter (s : string) :
  Text.str_forallb is_ascii (Text.str_filter (fun c => negb (is_url_only c)) s)
  = Text.str_forallb is_ascii s.
Proof.
  induction s as [|c s IH]; [reflexivity|].
  cbn [Text.str_filter Text.str_forallb].
  destruct (is_url_only c) eqn:E; cbn [negb].
  - rewrite IH. apply is_url_only_cases in E as [-> | ->]; reflexivity.
  - cbn [Text.str_forallb]. now rewrite IH.
Qed.

End Decoder.

(** C9. For any claims segment that contains ['-'] or ['_'] (a segment
    of JWT compact serialization is base64url text and so has no ['=']):
    the script's decoder behaves as if those characters were deleted, and
    whenever base64url decoding of the padded segment yields bytes, the
    script's decoder does not yield those bytes (it fails or yields other
    bytes). *)
Theorem std_decode_differs_from_base64url (segment : string) :
  Text.mem_char "="%char segment = false ->
  has_url_only segment = true ->
  Base64.b64decode (pad_segment segment)
  = Base64.b64decode
      (Text.str_filter (fun c => negb (is_url_only c)) (pad_segment segment))
  /\ forall bytes,
      Base64.urlsafe_b64decode (pad_segment segment) = inr bytes ->
      Base64.b64decode (pad_segment segment) <> inr bytes.
Proof.
  intros Hpad Hurl. split.
  - unfold Base64.b64decode, Base64.a2b_base64.
    rewrite forallb_ascii_filter, <- a2b_loop_skips_url_only. reflexivity.
  - intros bytes Hu Hs.
    unfold Base64.urlsafe_b64decode, Base64.b64decode in *.
    destruct (Text.str_forallb Base64.is_ascii (pad_segment segment));
      [|discriminate].
    unfold pad_segment, Text.str_mul in *.
    rewrite str_map_app, translate_pads in Hu.
    apply a2b_base64_unpadded in Hu as [Hlu Hmod];
      [|rewrite mem_pad_translate; exact Hpad].
    apply a2b_base64_unpadded in Hs as [Hls _]; [|exact Hpad].
    rewrite count_data_translate in *.
    pose proof (has_url_only_count segment Hurl).
    pose proof (count_data_nonneg segment).
    rewrite Hls in Hlu. clear - Hlu Hmod H H0.
    Z.div_mod_to_equations. lia.
Qed.

Lemma std_decode_differs_from_base64url_witness :
  Text.mem_char "="%char "e30-" = false /\
  has_url_only "e30-" = true /\
  Base64.urlsafe_b64decode (pad_segment "e30-") = inr "{}>" /\
  Base64.b64decode (pad_segment "e30-") <> inr "{}>".
Proof.
  split; [reflexivity|]. split; [reflexivity|]. split; [reflexivity|].
  apply (proj2 (std_decode_differs_from_base64url "e30-" eq_refl eq_refl)).
  reflexivity.
Defined.

(** Every base64url text meets the hypothesis on ['=']. *)
Lemma base64url_text_has_no_pad (s : string) :
  is_base64url_text s = true -> Text.mem_char "="%char s = false.
Proof.
  unfold is_base64url_text. induction s as [|c s IH]; [reflexivity|].
  cbn [Text.str_forallb Text.mem_char]. intros H.
  apply andb_true_iff in H as [Hc Hs]. rewrite (IH Hs), orb_false_r.
  destruct (Ascii.eqb_spec "="%char c) as [<-|]; [discriminate Hc|reflexivity].
Qed.

(** The hypothesis on ['='] marks the domain of the statement: on text
    that is no segment of a token, with a pad before the ['-'], both
    decoders stop at the pad and yield the same bytes. *)
Lemma padded_segment_decodes_alike :
  has_url_only "e30=-" = true /\
  Base64.urlsafe_b64decode (pad_segment "e30=-") = inr "{}" /\
  Base64.b64decode (pad_segment "e30=-") = inr "{}".
Proof. repeat split; reflexivity. Qed.

(** ** Properties of the padding *)

Lemma pad_count_range (payload : string) :
  1 <= pad_count payload <= 4
  /\ (Text.len payload + pad_count payload) mod 4 = 0.
Proof.
  unfold pad_count.
  assert (0 <= Text.len payload) by (unfold Text.len; lia).
  Z.div_mod_to_equations. lia.
Qed.

Lemma len_repeat_nat (c : ascii) (n : nat) :
  Text.len (Text.repeat_nat c n) = Z.of_nat n.
Proof.
  unfold Text.len. induction n as [|n IH]; cbn [Text.repeat_nat String.length];
    lia.
Qed.

(** The padded segment always has a length that is a multiple of four. *)
Lemma pad_segment_aligned (payload : string) :
  Text.len (pad_segment payload) mod 4 = 0.
Proof.
  unfold pad_segment, Text.str_mul.
  rewrite len_app, len_repeat_nat.
  destruct (pad_count_range payload) as [Hr Hm].
  rewrite Z2Nat.id by lia. exact Hm.
Qed.

(** A segment of length 21 receives exactly three pads. *)
Lemma pad_segment_21 (payload : string) :
  Text.len payload = 21 -> pad_segment payload = payload ++ "===".
Proof.
  intros H. unfold pad_segment, pad_count. rewrite H. reflexivity.
Qed.

(** C1. A segment whose length is already a multiple of four does not
    stay as it is: lines 83 / 236 / 260 append four pads to it. *)
Theorem aligned_segment_receives_four_pads (payload : string) :
  Text.len payload mod 4 = 0 ->
  pad_count payload = 4 /\ pad_segment payload = payload ++ "====".
Proof.
  intros H. unfold pad_segment, pad_count. rewrite H. split; reflexivity.
Qed.

Lemma aligned_segment_receives_four_pads_witness :
  Text.len "eyJhIjoxMjN9" mod 4 = 0 /\
  pad_count "eyJhIjoxMjN9" = 4 /\
  pad_segment "eyJhIjoxMjN9" = "eyJhIjoxMjN9====".
Proof.
  split; [reflexivity|].
  apply (aligned_segment_receives_four_pads "eyJhIjoxMjN9"). reflexivity.
Defined.

(* ------------------------------------------------------------------ *)
(** ** Properties of the scripts *)

Section Properties.

Context {env : Environment}.

Lemma bind_ok {A B : Type} (m : M A) (k : A -> M B) st a st' :
  m st = (Ok a, st') -> bind m k st = k a st'.
Proof. unfold bind. now intros ->. Qed.

Lemma bind_raise {A B : Type} (m : M A) (k : A -> M B) st e st' :
  m st = (Raise e, st') -> bind m k st = (Raise e, st').
Proof. unfold bind. now intros ->. Qed.

Lemma bind_exit {A B : Type} (m : M A) (k : A -> M B) st n st' :
  m st = (Exit n, st') -> bind m k st = (Exit n, st').
Proof. unfold bind. now intros ->. Qed.

Lemma success_true (status : Z) :
  success status -> (200 <=? status) && (status <? 300) = true.
Proof. unfold success. lia. Qed.

Lemma success_false (status : Z) :
  ~ success status -> (200 <=? status) && (status <? 300) = false.
Proof. unfold success. lia. Qed.

(** What one call of [api] does, by the provider's answer. *)
Lemma api_run timeout method path payload token st :
  api timeout method path payload token st =
  match server (sent st ++ [api_request method path payload token]) with
  | Reply status content =>
      if (200 <=? status) && (status <? 300) then
        if negb (String.eqb content "") then
          match json_loads content with
          | Some v =>
              (Ok (status, v),
               sending st (api_request method path payload token))
          | None =>
              (Raise JSONDecodeError,
               sending st (api_request method path payload token))
          end
        else (Ok (status, VNone),
              sending st (api_request method path payload token))
      else (Ok (status, VStr content),
            sending st (api_request method path payload token))
  | NoReply reason =>
      (Raise (URLError reason),
       sending st (api_request method path payload token))
  | Silent =>
      (Raise TimeoutError, sending st (api_request method path payload token))
  | Closed =>
      (Raise RemoteDisconnected,
       sending st (api_request method path payload token))
  end.
Proof.
  unfold api, try_except, bind, urlopen, loads. cbn [sending sent].
  destruct (server _) as [status content|reason| |]; try reflexivity.
  destruct ((200 <=? status) && (status <? 300)); [|reflexivity].
  destruct (negb (String.eqb content "")); [|reflexivity].
  destruct (json_loads content); reflexivity.
Qed.

(** Whatever the answer, the request has gone out and nothing is printed. *)
Lemma api_state timeout method path payload token st :
  snd (api timeout method path payload token st)
  = sending st (api_request method path payload token).
Proof.
  rewrite api_run.
  repeat match goal with
         | |- context [match ?x with _ => _ end] => destruct x
         end; reflexivity.
Qed.

(** C5. When the response carries an error status, [api] returns the
    status with the raw body text and raises nothing; when it is a
    success, [api] returns the status with the JSON-decoded body if the
    body is non-empty and with [None] if it is empty. *)
Theorem api_returns_status_and_body
        timeout method path payload token st status content :
  server (sent st ++ [api_request method path payload token])
  = Reply status content ->
  (~ success status ->
   api timeout method path payload token st
   = (Ok (status, VStr content),
      sending st (api_request method path payload token)))
  /\ (success status -> content = "" ->
      api timeout method path payload token st
      = (Ok (status, VNone),
         sending st (api_request method path payload token)))
  /\ (success status -> content <> "" ->
      forall v, json_loads content = Some v ->
      api timeout method path payload token st
      = (Ok (status, v),
         sending st (api_request method path payload token))).
Proof.
  intros Hreply. rewrite api_run, Hreply. repeat split.
  - intros H. now rewrite (success_false _ H).
  - intros H ->. now rewrite (success_true _ H).
  - intros H Hne v Hv. rewrite (success_true _ H), Hv.
    apply String.eqb_neq in Hne. now rewrite Hne.
Qed.

(** C8. The body of the request is the JSON serialization of the payload
    when the payload is truthy, and absent when it is [None], an empty
    list or an empty mapping; the JSON content type is always attached; the
    bearer header is attached when a non-empty token is given, and is the
    only other header. *)
Theorem api_request_body_and_headers method path payload token :
  (truthy payload = true ->
   data (api_request method path payload token) = Some (json_dumps payload))
  /\ (truthy payload = false ->
      data (api_request method path payload token) = None)
  /\ (truthy token = true ->
      headers (api_request method path payload token)
      = [("Content-Type", "application/json");
         ("Authorization", "Bearer " ++ py_str token)])
  /\ (truthy token = false ->
      headers (api_request method path payload token)
      = [("Content-Type", "application/json")])
  /\ forall timeout st,
      sent (snd (api timeout method path payload token st))
      = (sent st ++ [api_request method path payload token])%list.
Proof.
  unfold api_request, api_body, api_headers. cbn [data headers].
  repeat split; try (intros ->; reflexivity).
  intros timeout st. now rewrite api_state.
Qed.

(** C2. A role or user creation answered 409, and a role removal
    answered 404, end normally after printing the no-op line, and whatever
    follows them in the run is executed next. *)
Theorem conflict_and_absence_are_noops :
  (forall token role st body (B : Type) (k : unit -> M B),
      server (sent st ++ [api_request "POST" (realm_path "/roles")
                            (VDict [("name", VStr role);
                                    ("description",
                                     VStr ("CRM " ++ role ++ " role"))])
                            token])
      = Reply 409 body ->
      bind (create_role token role) k st
      = k tt (printing
                (sending st (api_request "POST" (realm_path "/roles")
                               (VDict [("name", VStr role);
                                       ("description",
                                        VStr ("CRM " ++ role ++ " role"))])
                               token))
                ("   " ++ role ++ ": already exists")))
  /\ (forall token role st body (B : Type) (k : unit -> M B),
         server (sent st ++ [api_request "DELETE"
                               (realm_path ("/roles/" ++ role)) VNone token])
         = Reply 404 body ->
         bind (delete_role token role) k st
         = k tt (printing
                   (sending st (api_request "DELETE"
                                  (realm_path ("/roles/" ++ role)) VNone token))
                   ("   " ++ role ++ ": not found (skip)")))
  /\ (forall token user label st body (B : Type) (k : unit -> M B),
         server (sent st ++ [api_request "POST" (realm_path "/users")
                               user token])
         = Reply 409 body ->
         bind (create_user token user label) k st
         = k tt (printing
                   (sending st (api_request "POST" (realm_path "/users")
                                  user token))
                   ("   " ++ label ++ ": already exists"))).
Proof.
  repeat split; intros.
  all: apply bind_ok.
  all: unfold create_role, delete_role, create_user, setup_api, bind.
  all: rewrite api_run, H; reflexivity.
Qed.

(** C3. When the lookup of [crm-web] yields an empty list, the first
    script prints its diagnostic and exits with status 1, the second stops
    on the uncaught [IndexError] of [clients[0]], which the interpreter
    reports before exiting with status 1; in both, the lookup is the last
    request sent and no later step prints anything. *)
Theorem empty_client_list_stops_the_run :
  (forall st0 token st1 status content,
      fix_admin_session st0 = (Ok token, st1) ->
      server (sent st1 ++ [api_request "GET"
                             (realm_path "/clients?clientId=crm-web")
                             VNone token])
      = Reply status content ->
      success status ->
      json_loads content = Some (VList []) ->
      fix_main st0
      = (Exit 1,
         printing
           (sending (printing st1 "2. Finding crm-web client...")
                    (api_request "GET" (realm_path "/clients?clientId=crm-web")
                                 VNone token))
           "   ❌ Client not found")
      /\ process_status (fst (fix_main st0)) = 1)
  /\ (forall st0 token st1 status content,
         setup_users st0 = (Ok token, st1) ->
         server (sent st1 ++ [api_request "GET"
                                (realm_path "/clients?clientId=crm-web")
                                VNone token])
         = Reply status content ->
         success status ->
         content <> "" ->
         json_loads content = Some (VList []) ->
         setup_main st0
         = (Raise IndexError,
            sending
              (printing st1 (nl ++ "── 5. Add company_id protocol mapper ──"))
              (api_request "GET" (realm_path "/clients?clientId=crm-web")
                           VNone token))
         /\ process_status (fst (setup_main st0)) = 1
         /\ traceback (fst (setup_main st0)) = Some IndexError).
Proof.
  split.
  - intros st0 token st1 status content Hsession Hreply Hok Hjson.
    assert (Hrun : fix_main st0
                   = (Exit 1,
                      printing
                        (sending (printing st1 "2. Finding crm-web client...")
                           (api_request "GET"
                              (realm_path "/clients?clientId=crm-web")
                              VNone token))
                        "   ❌ Client not found")).
    { unfold fix_main. rewrite (bind_ok _ _ _ _ _ Hsession).
      apply bind_exit.
      unfold fix_find_client, fix_api, bind, print.
      rewrite api_run. cbn [printing sent].
      rewrite Hreply, (success_true _ Hok).
      destruct (negb (String.eqb content "")); [rewrite Hjson|]; reflexivity. }
    rewrite Hrun. split; reflexivity.
  - intros st0 token st1 status content Husers Hreply Hok Hne Hjson.
    assert (Hrun : setup_main st0
                   = (Raise IndexError,
                      sending
                        (printing st1
                           (nl ++ "── 5. Add company_id protocol mapper ──"))
                        (api_request "GET"
                           (realm_path "/clients?clientId=crm-web")
                           VNone token))).
    { unfold setup_main. rewrite (bind_ok _ _ _ _ _ Husers).
      apply bind_raise.
      unfold setup_mapper, setup_api, bind, print.
      rewrite api_run. cbn [printing sent].
      rewrite Hreply, (success_true _ Hok), Hjson.
      apply String.eqb_neq in Hne. rewrite Hne. reflexivity. }
    rewrite Hrun. repeat split; reflexivity.
Qed.

Lemma dict_get_set_same (k : string) (v : value) (d : Dict.t) :
  Dict.get k (Dict.set k v d) = Some v.
Proof.
  induction d as [|[k' v'] d IH]; cbn [Dict.set Dict.get].
  - now rewrite String.eqb_refl.
  - destruct (String.eqb k k') eqn:E; cbn [Dict.get]; rewrite E; auto.
Qed.

Lemma dict_get_set_other (k k' : string) (v : value) (d : Dict.t) :
  k' <> k -> Dict.get k' (Dict.set k v d) = Dict.get k' d.
Proof.
  intros Hne. induction d as [|[k0 v0] d IH]; cbn [Dict.set Dict.get].
  - apply String.eqb_neq in Hne. now rewrite Hne.
  - destruct (String.eqb k k0) eqn:E; cbn [Dict.get].
    + apply String.eqb_eq in E. subst k0.
      apply String.eqb_neq in Hne. now rewrite Hne.
    + now rewrite IH.
Qed.

Lemma dict_set_truthy (k : string) (v : value) (d : Dict.t) :
  truthy (VDict (Dict.set k v d)) = true.
Proof.
  destruct d as [|[k' v'] d]; cbn [Dict.set]; [reflexivity|].
  destruct (String.eqb k k'); reflexivity.
Qed.

(** The representation [with_company_id] builds from a fetched one. *)
Lemma with_company_id_run (u attrs : Dict.t) :
  existing_attributes u = Some attrs ->
  with_company_id (VDict u)
  = Val (VDict (Dict.set "attributes"
                  (VDict (Dict.set "company_id" (VList [VStr "1"]) attrs))
                  (Dict.set "attributes" (VDict attrs) u))).
Proof.
  unfold existing_attributes, with_company_id, py_get.
  destruct (Dict.get "attributes" u) as [[| | | | |a]|] eqn:E; try discriminate.
  all: intros [= <-]; cbn [rbind setitem_key getitem_key].
  all: rewrite dict_get_set_same; reflexivity.
Qed.

(** C4. For a fetched user whose attributes are a mapping (or missing),
    the PUT of the attribute update carries a representation whose
    [company_id] attribute is [['1']], whose other attributes are those
    fetched, and whose other fields are those fetched. *)
Theorem company_id_is_merged_into_attributes
        token users user_id st (u attrs : Dict.t) :
  getitem_int users 0 = Val (VDict u) ->
  existing_attributes u = Some attrs ->
  exists u' attrs',
    sent (snd (set_company_id token users user_id st))
    = (sent st ++ [api_request "PUT"
                     (realm_path ("/users/" ++ py_str user_id))
                     (VDict u') token])%list
    /\ data (api_request "PUT" (realm_path ("/users/" ++ py_str user_id))
                         (VDict u') token)
       = Some (json_dumps (VDict u'))
    /\ Dict.get "attributes" u' = Some (VDict attrs')
    /\ Dict.get "company_id" attrs' = Some (VList [VStr "1"])
    /\ (forall k, k <> "company_id" -> Dict.get k attrs' = Dict.get k attrs)
    /\ (forall f, f <> "attributes" -> Dict.get f u' = Dict.get f u).
Proof.
  intros Huser Hattrs.
  exists (Dict.set "attributes"
            (VDict (Dict.set "company_id" (VList [VStr "1"]) attrs))
            (Dict.set "attributes" (VDict attrs) u)),
         (Dict.set "company_id" (VList [VStr "1"]) attrs).
  repeat split.
  - unfold set_company_id, setup_api, bind, lift.
    rewrite Huser, (with_company_id_run _ _ Hattrs).
    match goal with
    | |- context [api ?t ?m ?p ?d ?tok st] =>
        pose proof (api_state t m p d tok st) as Hs;
        destruct (api t m p d tok st) as [[[c b]|e|n] st1]
    end; cbn [snd] in Hs; subst st1; reflexivity.
  - unfold api_request, api_body. cbn [data]. now rewrite dict_set_truthy.
  - apply dict_get_set_same.
  - apply dict_get_set_same.
  - intros k Hk. now apply dict_get_set_other.
  - intros f Hf. now rewrite !dict_get_set_other.
Qed.

(** An error body that is not empty passes the guard and breaks the
    indexing that follows. *)
Lemma error_body_index (content : string) :
  content <> "" ->
  truthy (VStr content) = true
  /\ exists c, getitem_int (VStr content) 0 = Val (VStr (String c ""))
               /\ getitem_key (VStr (String c "")) "id" = Err TypeError.
Proof.
  intros Hne. split.
  - cbn [truthy]. apply String.eqb_neq in Hne. now rewrite Hne.
  - destruct content as [|c rest]; [congruence|]. exists c. split; reflexivity.
Qed.




Lemma never_exits_ret {A : Type} (a : A) : never_exits (ret a).
Proof. intros st n st'. discriminate. Qed.

Lemma never_exits_lift {A : Type} (r : result A) : never_exits (lift r).
Proof. intros st n st'. unfold lift. destruct r; discriminate. Qed.

Lemma never_exits_print (line : string) : never_exits (print line).
Proof. intros st n st'. discriminate. Qed.

Lemma never_exits_loads (text : string) : never_exits (loads text).
Proof.
  intros st n st'. unfold loads. destruct (json_loads text); discriminate.
Qed.

Lemma never_exits_urlopen (req : request) (timeout : Z) :
  never_exits (urlopen req timeout).
Proof.
  intros st n st'. unfold urlopen.
  destruct (server _) as [status content|reason| |]; try discriminate.
  destruct ((200 <=? status) && (status <? 300)); discriminate.
Qed.

Lemma never_exits_bind {A B : Type} (m : M A) (k : A -> M B) :
  never_exits m -> (forall a, never_exits (k a)) -> never_exits (bind m k).
Proof.
  intros Hm Hk st n st'. unfold bind.
  destruct (m st) as [[a|e|n'] st1] eqn:E.
  - apply Hk.
  - discriminate.
  - exfalso. exact (Hm _ _ _ E).
Qed.

Lemma never_exits_if {A : Type} (b : bool) (m1 m2 : M A) :
  never_exits m1 -> never_exits m2 -> never_exits (if b then m1 else m2).
Proof. destruct b; auto. Qed.

Ltac never_exits :=
  repeat first
    [ apply never_exits_ret
    | apply never_exits_lift
    | apply never_exits_print
    | apply never_exits_loads
    | apply never_exits_urlopen
    | apply never_exits_if
    | apply never_exits_bind; [|intros]
    | match goal with
      | |- never_exits (match ?x with (_, _) => _ end) => destruct x
      end ].

Lemma never_exits_fetch (form : string) : never_exits (fetch_access_token form).
Proof. unfold fetch_access_token. never_exits. Qed.

Lemma never_exits_decode (tok : value) : never_exits (decode_claims tok).
Proof. unfold decode_claims. never_exits. Qed.

Lemma never_exits_verify_admin_body : never_exits verify_admin_body.
Proof.
  unfold verify_admin_body, check_admin_claims.
  apply never_exits_bind; [apply never_exits_fetch|intros tok].
  apply never_exits_bind; [apply never_exits_decode|intros decoded].
  never_exits.
Qed.

Lemma never_exits_verify_superadmin_body : never_exits verify_superadmin_body.
Proof.
  unfold verify_superadmin_body, check_superadmin_claims.
  apply never_exits_bind; [apply never_exits_fetch|intros tok].
  apply never_exits_bind; [apply never_exits_decode|intros decoded].
  never_exits.
Qed.

(** A [try] whose handler covers every exception ends normally as soon as
    its body cannot exit. *)
Lemma guarded_ends_normally (body : M verdict) (prefix : string) st :
  never_exits body ->
  exists r st',
    try_except (v <- body ;; ret (Some v)) (report_failure prefix) st
    = (Ok r, st').
Proof.
  intros Hbody. unfold try_except, bind, report_failure, print, ret.
  destruct (body st) as [[v|e|n] st1] eqn:E.
  - do 2 eexists. reflexivity.
  - do 2 eexists. reflexivity.
  - exfalso. exact (Hbody _ _ _ E).
Qed.

(** C6. In the second script an exception raised while a principal's
    token is fetched, decoded or checked is caught: the failure line with
    the text of the exception is printed and the run goes on with what
    follows; neither verification can raise or exit, so the second check
    and the summary are always reached. *)
Theorem verification_failures_are_reported :
  (forall st e st1 (B : Type) (k : option verdict -> M B),
      verify_admin_body st = (Raise e, st1) ->
      bind verify_admin k st
      = k None (printing st1 ("   ❌ Token test failed: " ++ exn_str e)))
  /\ (forall st e st1 (B : Type) (k : option verdict -> M B),
         verify_superadmin_body st = (Raise e, st1) ->
         bind verify_superadmin k st
         = k None (printing st1
                     ("   ❌ Superadmin token test failed: " ++ exn_str e)))
  /\ (forall st, exists r st', verify_admin st = (Ok r, st'))
  /\ (forall st, exists r st', verify_superadmin st = (Ok r, st'))
  /\ (forall st, exists st', setup_verify st = (Ok tt, st')).
Proof.
  split; [|split; [|split; [|split]]].
  - intros st e st1 B k H. apply bind_ok.
    unfold verify_admin, try_except, bind. rewrite H. reflexivity.
  - intros st e st1 B k H. apply bind_ok.
    unfold verify_superadmin, try_except, bind. rewrite H. reflexivity.
  - intros st. apply guarded_ends_normally, never_exits_verify_admin_body.
  - intros st. apply guarded_ends_normally, never_exits_verify_superadmin_body.
  - intros st. unfold setup_verify, bind at 1, print.
    destruct (guarded_ends_normally verify_admin_body
                "   ❌ Token test failed: "
                (printing st (nl ++ "── 8. Verify token claims ──"))
                never_exits_verify_admin_body) as (r1 & st1 & H1).
    fold verify_admin in H1. unfold bind at 1. rewrite H1.
    destruct (guarded_ends_normally verify_superadmin_body
                "   ❌ Superadmin token test failed: " st1
                never_exits_verify_superadmin_body) as (r2 & st2 & H2).
    fold verify_superadmin in H2. unfold bind at 1. rewrite H2.
    eexists. reflexivity.
Qed.

Lemma role_names_cons (x : value) (items : list value) (names : list string) :
  role_names (x :: items) = Some names ->
  exists s rest, x = VStr s /\ names = s :: rest /\ role_names items = Some rest.
Proof.
  cbn [role_names]. destruct x; try discriminate.
  destruct (role_names items) as [rest|]; [|discriminate].
  intros [= <-]. eauto.
Qed.

Lemma role_names_hashable (items : list value) :
  forall names, role_names items = Some names -> forallb hashable items = true.
Proof.
  induction items as [|x items IH]; intros names H; [reflexivity|].
  apply role_names_cons in H as (s & rest & -> & -> & H).
  cbn [forallb hashable andb]. eauto.
Qed.

Lemma role_names_existsb (k : string) (items : list value) :
  forall names,
    role_names items = Some names ->
    existsb (eq_str k) items = existsb (String.eqb k) names.
Proof.
  induction items as [|x items IH]; intros names H.
  - cbn in H. injection H as <-. reflexivity.
  - apply role_names_cons in H as (s & rest & -> & -> & H).
    cbn [existsb eq_str]. now rewrite (IH rest H).
Qed.

Lemma role_names_shown (items : list value) :
  forall names,
    role_names items = Some names ->
    exists kept, filter_not_startswith "default" items = Val kept.
Proof.
  induction items as [|x items IH]; intros names H.
  - eexists. reflexivity.
  - apply role_names_cons in H as (s & rest & -> & -> & H).
    destruct (IH rest H) as (kept & Hk).
    cbn [filter_not_startswith py_startswith rbind]. rewrite Hk.
    eexists. reflexivity.
Qed.

Lemma existsb_eqb_In (k : string) (names : list string) :
  existsb (String.eqb k) names = true <-> In k names.
Proof.
  rewrite existsb_exists. split.
  - intros (x & Hin & Heq). apply String.eqb_eq in Heq. now subst.
  - intros Hin. exists k. split; [assumption|apply String.eqb_refl].
Qed.

(** The set the first script builds from a well-formed token holds the
    roles of both claims. *)
Lemma fix_all_roles_typed (d : Dict.t) (ras rrs : list string) :
  realm_access_roles d = Some ras ->
  legacy_realm_roles d = Some rrs ->
  exists ra rr shown all_roles,
    py_get (VDict d) "realm_access" (VDict []) = Val (VDict ra)
    /\ py_get (VDict d) "realm_roles" (VList []) = Val rr
    /\ py_get (VDict ra) "roles" (VStr "MISSING") = Val shown
    /\ fix_all_roles (VDict ra) rr = Val all_roles
    /\ set_contains_str "owner_admin" all_roles
       = existsb (String.eqb "owner_admin") (ras ++ rrs).
Proof.
  unfold realm_access_roles, legacy_realm_roles, claim_roles, py_get.
  intros Hra Hrr.
  assert (Hlegacy :
            exists rr items,
              match Dict.get "realm_roles" d with
              | Some x => Val x
              | None => Val (VList [])
              end = Val rr
              /\ rr = VList items /\ role_names items = Some rrs).
  { destruct (Dict.get "realm_roles" d) as [[| | | |items|]|];
      try discriminate.
    - exists (VList items), items. auto.
    - exists (VList []), []. auto. }
  destruct Hlegacy as (rr & items2 & Hget2 & -> & Hn2).
  assert (Hupdate2 :
            forall acc, (if truthy (VList items2)
                         then set_update acc (VList items2)
                         else Val acc) = Val (acc ++ items2)%list).
  { intros acc. destruct items2 as [|x items2].
    - cbn. now rewrite app_nil_r.
    - cbn [truthy]. unfold set_update. cbn [py_iter rbind].
      now rewrite (role_names_hashable _ _ Hn2). }
  destruct (Dict.get "realm_access" d) as [[| | | | |ra]|]; try discriminate.
  - destruct (Dict.get "roles" ra) as [[| | | |items|]|] eqn:Eroles;
      try discriminate.
    + exists ra, (VList items2), (VList items), (items ++ items2)%list.
      repeat split; try assumption; try (rewrite Eroles; reflexivity).
      * unfold fix_all_roles. cbn [contains_str rbind]. unfold Dict.mem.
        rewrite Eroles. cbn [getitem_key]. rewrite Eroles.
        unfold set_update at 1. cbn [py_iter rbind].
        rewrite (role_names_hashable _ _ Hra). cbn [app rbind].
        apply Hupdate2.
      * unfold set_contains_str. rewrite !existsb_app.
        now rewrite (role_names_existsb _ _ _ Hra),
          (role_names_existsb _ _ _ Hn2).
    + injection Hra as <-.
      exists ra, (VList items2), (VStr "MISSING"), items2.
      repeat split; try assumption; try (rewrite Eroles; reflexivity).
      * unfold fix_all_roles. cbn [contains_str rbind]. unfold Dict.mem.
        rewrite Eroles. cbn [rbind]. apply (Hupdate2 []).
      * unfold set_contains_str. cbn [app].
        apply (role_names_existsb _ _ _ Hn2).
  - injection Hra as <-.
    exists [], (VList items2), (VStr "MISSING"), items2.
    repeat split; try assumption; try (rewrite Eroles; reflexivity).
    + unfold fix_all_roles. cbn [contains_str rbind Dict.mem Dict.get].
      apply (Hupdate2 []).
    + unfold set_contains_str. cbn [app].
      apply (role_names_existsb _ _ _ Hn2).
Qed.

(** The role sequence the second script reads from a well-formed token. *)
Lemma token_roles_typed (d : Dict.t) (ras : list string) :
  realm_access_roles d = Some ras ->
  exists items,
    token_roles (VDict d) = Val (VList items)
    /\ role_names items = Some ras.
Proof.
  unfold realm_access_roles, claim_roles, token_roles, py_get.
  intros Hra.
  destruct (Dict.get "realm_access" d) as [[| | | | |ra]|]; try discriminate.
  - cbn [rbind].
    destruct (Dict.get "roles" ra) as [[| | | |items|]|]; try discriminate.
    + exists items. auto.
    + exists []. auto.
  - cbn [rbind Dict.get]. exists []. auto.
Qed.

(** C7. On a well-formed token, the first script finds the role exactly
    when it is in the union of [realm_access.roles] and the legacy
    [realm_roles] claim; the second script finds the role exactly when it
    is in [realm_access.roles], and marks the first principal verified
    exactly when, in addition, [company_id] is truthy. *)
Theorem role_presence_checks :
  (forall d ras rrs st,
      realm_access_roles d = Some ras ->
      legacy_realm_roles d = Some rrs ->
      exists found st',
        fix_check_roles (VDict d) st = (Ok found, st')
        /\ (found = true <-> In "owner_admin" (ras ++ rrs)))
  /\ (forall d ras st,
         realm_access_roles d = Some ras ->
         exists v st',
           check_admin_claims (VDict d) st = (Ok v, st')
           /\ (v <> RoleMissing <-> In "company_admin" ras)
           /\ (v = Verified <->
               In "company_admin" ras
               /\ exists company_id,
                   Dict.get "company_id" d = Some company_id
                   /\ truthy company_id = true))
  /\ (forall d ras st,
         realm_access_roles d = Some ras ->
         exists v st',
           check_superadmin_claims (VDict d) st = (Ok v, st')
           /\ (v = Verified <-> In "super_admin" ras)).
Proof.
  split; [|split].
  - intros d ras rrs st Hra Hrr.
    destruct (fix_all_roles_typed d ras rrs Hra Hrr)
      as (ra & rr & shown & all_roles & H1 & H2 & H3 & H4 & H5).
    unfold fix_check_roles, bind, lift, print.
    rewrite H1. cbv beta iota. rewrite H2. cbv beta iota.
    rewrite H3. cbv beta iota. rewrite H4. cbv beta iota. rewrite H5.
    destruct (existsb (String.eqb "owner_admin") (ras ++ rrs)) eqn:E.
    + do 2 eexists. split; [reflexivity|].
      rewrite <- existsb_eqb_In. tauto.
    + do 2 eexists. split; [reflexivity|].
      rewrite <- existsb_eqb_In, E. split; discriminate.
  - intros d ras st Hra.
    destruct (token_roles_typed d ras Hra) as (items & Hroles & Hnames).
    destruct (role_names_shown items ras Hnames) as (kept & Hkept).
    pose proof (existsb_eqb_In "company_admin" ras) as Hin.
    unfold check_admin_claims, bind, lift, print, ret, shown_roles.
    rewrite Hroles. cbv beta iota. cbn [py_get py_iter rbind contains_str].
    rewrite Hkept, (role_names_existsb _ _ _ Hnames). cbn [rbind].
    destruct (Dict.get "company_id" d) as [cid|] eqn:Ecid; cbv beta iota.
    + destruct (existsb (String.eqb "company_admin") ras);
        destruct (truthy cid) eqn:Et; cbn [andb];
        do 2 eexists; (split; [reflexivity|]).
      * split; [split; [intros _; now apply Hin|discriminate]|].
        split; [intros _|reflexivity]. split; [now apply Hin|eauto].
      * split; [split; [intros _; now apply Hin|discriminate]|].
        split; [discriminate|]. intros (_ & c & [= <-] & Hc). congruence.
      * assert (Hnot : ~ In "company_admin" ras)
          by (intros Hc; apply Hin in Hc; discriminate).
        split; [split; [congruence|tauto]|]. split; [discriminate|tauto].
      * assert (Hnot : ~ In "company_admin" ras)
          by (intros Hc; apply Hin in Hc; discriminate).
        split; [split; [congruence|tauto]|]. split; [discriminate|tauto].
    + cbn [truthy]. rewrite andb_false_r.
      destruct (existsb (String.eqb "company_admin") ras);
        do 2 eexists; (split; [reflexivity|]).
      * split; [split; [intros _; now apply Hin|discriminate]|].
        split; [discriminate|]. intros (_ & c & Hc & _). discriminate.
      * assert (Hnot : ~ In "company_admin" ras)
          by (intros Hc; apply Hin in Hc; discriminate).
        split; [split; [congruence|tauto]|]. split; [discriminate|tauto].
  - intros d ras st Hra.
    destruct (token_roles_typed d ras Hra) as (items & Hroles & Hnames).
    destruct (role_names_shown items ras Hnames) as (kept & Hkept).
    pose proof (existsb_eqb_In "super_admin" ras) as Hin.
    unfold check_superadmin_claims, bind, lift, print, ret, shown_roles.
    rewrite Hroles. cbv beta iota. cbn [py_iter rbind contains_str].
    rewrite Hkept, (role_names_existsb _ _ _ Hnames). cbn [rbind].
    destruct (existsb (String.eqb "super_admin") ras);
      do 2 eexists; (split; [reflexivity|]).
    + split; [intros _; now apply Hin|reflexivity].
    + split; [discriminate|]. intros Hc. apply Hin in Hc. discriminate.
Qed.

End Properties.

(* ------------------------------------------------------------------ *)
(** ** The theorems at concrete runs *)

Lemma success_200 : success 200.
Proof. unfold success. lia. Qed.

Lemma not_success_403 : ~ success 403.
Proof. unfold success. lia. Qed.

Lemma api_returns_status_and_body_witness :
  server (Environment := Demo.provisioned_env)
         (sent Demo.start
          ++ [api_request (env := Demo.provisioned_env) "POST"
                          (realm_path "/users") SUPER_ADMIN Demo.admin_token])
  = Reply 409 "Conflict"
  /\ api (env := Demo.provisioned_env) 15 "POST" (realm_path "/users")
         SUPER_ADMIN Demo.admin_token Demo.start
     = (Ok (409, VStr "Conflict"),
        sending Demo.start
                (api_request (env := Demo.provisioned_env) "POST"
                             (realm_path "/users") SUPER_ADMIN
                             Demo.admin_token)).
Proof.
  split; [reflexivity|].
  apply (proj1 (api_returns_status_and_body
                  (env := Demo.provisioned_env) 15 "POST" (realm_path "/users")
                  SUPER_ADMIN Demo.admin_token Demo.start 409 "Conflict"
                  eq_refl)).
  unfold success. lia.
Defined.

Lemma api_request_body_and_headers_witness :
  truthy SUPER_ADMIN = true
  /\ data (api_request (env := Demo.provisioned_env) "POST"
                       (realm_path "/users") SUPER_ADMIN Demo.admin_token)
     = Some (Demo.dumps SUPER_ADMIN).
Proof.
  split; [reflexivity|].
  apply (proj1 (api_request_body_and_headers
                  (env := Demo.provisioned_env) "POST" (realm_path "/users")
                  SUPER_ADMIN Demo.admin_token)).
  reflexivity.
Defined.

(** Counterexample for C8: an empty list and an empty mapping given as
    payload are not serialized, the request has no body; and without a
    token there is no [Authorization] header. *)
Lemma empty_payload_has_no_body :
  data (api_request (env := Demo.provisioned_env) "POST"
                    (realm_path "/users/u1/role-mappings/realm")
                    (VList []) Demo.admin_token)
  <> Some (json_dumps (Environment := Demo.provisioned_env) (VList []))
  /\ data (api_request (env := Demo.provisioned_env) "POST"
                       (realm_path "/users") (VDict []) Demo.admin_token)
     <> Some (json_dumps (Environment := Demo.provisioned_env) (VDict []))
  /\ headers (api_request (env := Demo.provisioned_env) "POST"
                          (realm_path "/users") SUPER_ADMIN VNone)
     = [("Content-Type", "application/json")].
Proof. repeat split; discriminate. Qed.

Lemma conflict_and_absence_are_noops_witness :
  server (Environment := Demo.provisioned_env)
         (sent Demo.start
          ++ [api_request (env := Demo.provisioned_env) "DELETE"
                          (realm_path ("/roles/" ++ "viewer")) VNone
                          Demo.admin_token])
  = Reply 404 "Not Found"
  /\ bind (delete_role (env := Demo.provisioned_env) Demo.admin_token "viewer")
          (fun _ => print "next") Demo.start
     = (Ok tt,
        printing
          (printing
             (sending Demo.start
                (api_request (env := Demo.provisioned_env) "DELETE"
                             (realm_path ("/roles/" ++ "viewer")) VNone
                             Demo.admin_token))
             "   viewer: not found (skip)")
          "next").
Proof.
  split; [reflexivity|].
  apply (proj1 (proj2 (conflict_and_absence_are_noops
                         (env := Demo.provisioned_env)))
               Demo.admin_token "viewer" Demo.start "Not Found" unit
               (fun _ => print "next")).
  reflexivity.
Defined.

Lemma empty_client_list_stops_the_run_witness :
  fst (fix_admin_session (env := Demo.provisioned_env) Demo.start)
  = Ok Demo.admin_token
  /\ fst (setup_users (env := Demo.provisioned_env) Demo.start)
     = Ok Demo.admin_token
  /\ json_loads (Environment := Demo.provisioned_env) "[]" = Some (VList [])
  /\ process_status (fst (fix_main (env := Demo.provisioned_env) Demo.start)) = 1
  /\ process_status (fst (setup_main (env := Demo.provisioned_env) Demo.start)) = 1.
Proof.
  split; [reflexivity|]. split; [reflexivity|]. split; [reflexivity|].
  split.
  - apply (proj1 (empty_client_list_stops_the_run
                    (env := Demo.provisioned_env))
                 Demo.start Demo.admin_token
                 (snd (fix_admin_session (env := Demo.provisioned_env)
                                         Demo.start))
                 200 "[]").
    + reflexivity.
    + reflexivity.
    + exact success_200.
    + reflexivity.
  - apply (proj2 (empty_client_list_stops_the_run
                    (env := Demo.provisioned_env))
                 Demo.start Demo.admin_token
                 (snd (setup_users (env := Demo.provisioned_env) Demo.start))
                 200 "[]").
    + reflexivity.
    + reflexivity.
    + exact success_200.
    + discriminate.
    + reflexivity.
Defined.

Lemma company_id_is_merged_into_attributes_witness :
  getitem_int (VList [Demo.user_with_locale]) 0 = Val Demo.user_with_locale
  /\ exists u' attrs',
      sent (snd (set_company_id (env := Demo.provisioned_env) Demo.admin_token
                                (VList [Demo.user_with_locale]) (VStr "u1")
                                Demo.start))
      = [api_request (env := Demo.provisioned_env) "PUT"
                     (realm_path ("/users/" ++ "u1")) (VDict u')
                     Demo.admin_token]
      /\ Dict.get "attributes" u' = Some (VDict attrs')
      /\ Dict.get "company_id" attrs' = Some (VList [VStr "1"])
      /\ Dict.get "locale" attrs' = Some (VList [VStr "en"])
      /\ Dict.get "username" u' = Some (VStr "admin@crm.local").
Proof.
  split; [reflexivity|].
  destruct (company_id_is_merged_into_attributes
              (env := Demo.provisioned_env) Demo.admin_token
              (VList [Demo.user_with_locale]) (VStr "u1") Demo.start
              [("id", VStr "u1");
               ("username", VStr "admin@crm.local");
               ("attributes", VDict [("locale", VList [VStr "en"])])]
              [("locale", VList [VStr "en"])] eq_refl eq_refl)
    as (u' & attrs' & Hsent & _ & Hattrs & Hcid & Hrest & Hfields).
  exists u', attrs'. split; [exact Hsent|]. split; [exact Hattrs|].
  split; [exact Hcid|]. split.
  - rewrite Hrest; [reflexivity|discriminate].
  - rewrite Hfields; [reflexivity|discriminate].
Defined.

Lemma verification_failures_are_reported_witness :
  verify_admin_body (env := Demo.grant_refused_env) Demo.start
  = (Raise (HTTPError 401 "Unauthorized"),
     sending Demo.start
       (token_request
          "grant_type=password&client_id=crm-web&username=admin%40crm.local&password=admin123"))
  /\ bind (verify_admin (env := Demo.grant_refused_env))
          (fun _ => print "next") Demo.start
     = (Ok tt,
        printing
          (printing
             (sending Demo.start
                (token_request
                   "grant_type=password&client_id=crm-web&username=admin%40crm.local&password=admin123"))
             "   ❌ Token test failed: HTTP Error 401")
          "next").
Proof.
  split; [reflexivity|].
  apply (proj1 (verification_failures_are_reported
                  (env := Demo.grant_refused_env))
               Demo.start (HTTPError 401 "Unauthorized") _ unit
               (fun _ => print "next")).
  reflexivity.
Defined.

(** Counterexample for C6: in the first script the refused password grant
    of the verification step is not caught; the run ends in the
    [HTTPError], right after the heading of step 7, and the closing line
    is never printed. *)
Lemma fix_verification_failure_aborts :
  fst (fix_main (env := Demo.grant_refused_env) Demo.start)
  = Raise (HTTPError 401 "Unauthorized")
  /\ last (stdout (snd (fix_main (env := Demo.grant_refused_env) Demo.start)))
          ""
     = "7. Verifying token has roles..."
  /\ process_status (fst (fix_main (env := Demo.grant_refused_env) Demo.start))
     = 1.
Proof. repeat split; reflexivity. Qed.

Lemma role_presence_checks_witness :
  realm_access_roles Demo.legacy_only_claims = Some ["offline_access"]
  /\ legacy_realm_roles Demo.legacy_only_claims = Some ["company_admin"]
  /\ exists v st',
      check_admin_claims (env := Demo.provisioned_env)
                         (VDict Demo.legacy_only_claims) Demo.start
      = (Ok v, st')
      /\ (v <> RoleMissing <-> In "company_admin" ["offline_access"]).
Proof.
  split; [reflexivity|]. split; [reflexivity|].
  destruct (proj1 (proj2 (role_presence_checks (env := Demo.provisioned_env)))
                  Demo.legacy_only_claims ["offline_access"] Demo.start
                  eq_refl)
    as (v & st' & Hrun & Hrole & _).
  exists v, st'. split; assumption.
Defined.

(** Counterexample for C7: the second script reports the role missing
    from a token whose legacy [realm_roles] claim holds it, although the
    role is in the union of the two claims. *)
Lemma legacy_claim_is_not_consulted :
  realm_access_roles Demo.legacy_only_claims = Some ["offline_access"]
  /\ legacy_realm_roles Demo.legacy_only_claims = Some ["company_admin"]
  /\ In "company_admin" (["offline_access"] ++ ["company_admin"])
  /\ fst (check_admin_claims (env := Demo.provisioned_env)
                             (VDict Demo.legacy_only_claims) Demo.start)
     = Ok RoleMissing.
Proof.
  split; [reflexivity|]. split; [reflexivity|].
  split; [right; left; reflexivity|reflexivity].
Qed.


(** The padded segment of the empty object decodes to its JSON text. *)
Example decode_empty_object :
  Base64.b64decode (pad_segment "e30") = inr "{}".
Proof. reflexivity. Qed.

(* ------------------------------------------------------------------ *)
(** ** Further properties of the token decoding *)

(** The pad count is between one and four and always completes the last
    quad: the padded segment has a length that is a multiple of four. *)
Theorem padding_completes_a_quad (payload : string) :
  1 <= pad_count payload <= 4
  /\ Text.len (pad_segment payload) = Text.len payload + pad_count payload
  /\ Text.len (pad_segment payload) mod 4 = 0.
Proof.
  destruct (pad_count_range payload) as [Hr Hm].
  assert (Hlen : Text.len (pad_segment payload)
                 = Text.len payload + pad_count payload).
  { unfold pad_segment, Text.str_mul. rewrite len_app, len_repeat_nat.
    rewrite Z2Nat.id by lia. reflexivity. }
  rewrite Hlen. auto.
Qed.

Lemma split_on_no_sep (sep : ascii) (s : string) :
  Text.mem_char sep s = false ->
  forall cur, Text.split_on sep cur s = [cur ++ s].
Proof.
  induction s as [|c s IH]; intros Hs cur; cbn [Text.split_on].
  - f_equal. induction cur as [|d cur IHc]; cbn; [reflexivity|].
    now rewrite <- IHc.
  - cbn [Text.mem_char] in Hs. apply orb_false_iff in Hs as [Hc Hs].
    rewrite Ascii.eqb_sym, Hc. rewrite (IH Hs).
    f_equal. induction cur as [|d cur IHc]; cbn; [reflexivity|].
    now rewrite IHc.
Qed.

Lemma split_on_first_sep (sep : ascii) (s rest : string) :
  Text.mem_char sep s = false ->
  forall cur,
    Text.split_on sep cur (s ++ String sep rest)
    = (cur ++ s) :: Text.split_on sep EmptyString rest.
Proof.
  induction s as [|c s IH]; intros Hs cur; cbn [append Text.split_on].
  - rewrite Ascii.eqb_refl. f_equal.
    induction cur as [|d cur IHc]; cbn; [reflexivity|]. now rewrite <- IHc.
  - cbn [Text.mem_char] in Hs. apply orb_false_iff in Hs as [Hc Hs].
    rewrite Ascii.eqb_sym, Hc. rewrite (IH Hs).
    f_equal. induction cur as [|d cur IHc]; cbn; [reflexivity|].
    now rewrite IHc.
Qed.

(** The claims segment of a token is what stands between its first and
    its second dot, or after the first dot when there is no second; a token
    without a dot has no second component ([IndexError]) and a token that
    is not text cannot be split ([AttributeError]). *)
Theorem claims_segment_is_second_component :
  (forall header payload signature,
      Text.mem_char "."%char header = false ->
      Text.mem_char "."%char payload = false ->
      claims_segment (VStr (header ++ "." ++ payload ++ "." ++ signature))
      = Val payload
      /\ claims_segment (VStr (header ++ "." ++ payload)) = Val payload)
  /\ (forall tok,
         Text.mem_char "."%char tok = false ->
         claims_segment (VStr tok) = Err IndexError)
  /\ (forall tok,
         (forall s, tok <> VStr s) ->
         claims_segment tok = Err AttributeError).
Proof.
  split; [|split].
  - intros header payload signature Hh Hp.
    unfold claims_segment, py_split_dot, Text.split. cbn [rbind]. split.
    + change (header ++ "." ++ payload ++ "." ++ signature)
        with (header ++ String "." (payload ++ String "." signature)).
      rewrite (split_on_first_sep _ _ _ Hh), (split_on_first_sep _ _ _ Hp).
      reflexivity.
    + change (header ++ "." ++ payload) with (header ++ String "." payload).
      rewrite (split_on_first_sep _ _ _ Hh), (split_on_no_sep _ _ Hp).
      reflexivity.
  - intros tok Ht. unfold claims_segment, py_split_dot, Text.split.
    cbn [rbind]. rewrite (split_on_no_sep _ _ Ht). reflexivity.
  - intros tok Ht. destruct tok; try reflexivity.
    exfalso. exact (Ht s eq_refl).
Qed.

Lemma claims_segment_is_second_component_witness :
  Text.mem_char "."%char "eyJhbGciOiJSUzI1NiJ9" = false
  /\ Text.mem_char "."%char "e30" = false
  /\ claims_segment (VStr ("eyJhbGciOiJSUzI1NiJ9" ++ "." ++ "e30" ++ "." ++ "c2ln"))
     = Val "e30"
  /\ claims_segment (VStr "no-dots-here") = Err IndexError
  /\ claims_segment (VInt 7) = Err AttributeError.
Proof.
  split; [reflexivity|]. split; [reflexivity|]. split; [|split].
  - apply (proj1 claims_segment_is_second_component
                 "eyJhbGciOiJSUzI1NiJ9" "e30" "c2ln" eq_refl eq_refl).
  - apply (proj1 (proj2 claims_segment_is_second_component)). reflexivity.
  - apply (proj2 (proj2 claims_segment_is_second_component)). discriminate.
Defined.

Lemma a2b_loop_filter_read (s : string) :
  forall quad_pos leftchar pads bin_data,
    Base64.a2b_loop s quad_pos leftchar pads bin_data
    = Base64.a2b_loop (Text.str_filter is_read s)
                      quad_pos leftchar pads bin_data.
Proof.
  induction s as [|c s IH]; intros q lc p out; [reflexivity|].
  cbn [Text.str_filter]. destruct (is_read c) eqn:Er.
  - cbn [Base64.a2b_loop]. now rewrite !IH.
  - unfold is_read, is_significant in Er.
    apply orb_false_iff in Er as [Er _].
    apply orb_false_iff in Er as [Et Epad].
    cbn [Base64.a2b_loop]. rewrite Epad.
    replace (64 <=? Base64.table_a2b_base64 c) with true by lia.
    apply IH.
Qed.

Lemma forallb_ascii_filter_read (s : string) :
  Text.str_forallb Base64.is_ascii (Text.str_filter is_read s)
  = Text.str_forallb Base64.is_ascii s.
Proof.
  induction s as [|c s IH]; [reflexivity|].
  cbn [Text.str_filter Text.str_forallb]. destruct (is_read c) eqn:Er.
  - cbn [Text.str_forallb]. now rewrite IH.
  - unfold is_read in Er. apply orb_false_iff in Er as [_ Ea].
    apply negb_false_iff in Ea. now rewrite Ea, IH.
Qed.

(** Of its input, [base64.b64decode] reads the characters of the alphabet
    and the pads, and fails on a character that is not ASCII; every other
    character (line breaks, blanks, the two characters of base64url, ...)
    can be deleted from the input without changing the result. *)
Theorem decoder_ignores_other_characters (s : string) :
  Base64.b64decode s = Base64.b64decode (Text.str_filter is_read s).
Proof.
  unfold Base64.b64decode, Base64.a2b_base64.
  rewrite forallb_ascii_filter_read, <- a2b_loop_filter_read. reflexivity.
Qed.

Lemma alphabet_char (c : ascii) :
  (Base64.table_a2b_base64 c <? 64) = true ->
  Base64.is_ascii c = true /\ Ascii.eqb Base64.BASE64_PAD c = false.
Proof.
  intros H. split.
  - revert H. unfold Base64.table_a2b_base64, Base64.is_ascii.
    repeat match goal with
           | |- context [if ?b then _ else _] => destruct b eqn:?
           end; intros; try lia.
    all: rewrite ?andb_true_iff in *; lia.
  - destruct (Ascii.eqb_spec Base64.BASE64_PAD c) as [<-|]; [|reflexivity].
    discriminate H.
Qed.

Lemma in_alphabet_facts (s : string) :
  in_alphabet s = true ->
  Text.mem_char Base64.BASE64_PAD s = false
  /\ count_data s = Text.len s
  /\ Text.str_forallb Base64.is_ascii s = true.
Proof.
  unfold in_alphabet. induction s as [|c s IH]; intros H.
  - repeat split.
  - cbn [Text.str_forallb] in H. apply andb_true_iff in H as [Hc Hs].
    destruct (IH Hs) as (Hm & Hn & Ha).
    destruct (alphabet_char c Hc) as [Hasc Hpad].
    cbn [Text.mem_char count_data Text.str_forallb].
    rewrite Hc, Hpad, Hm, Hn, Hasc, Ha. repeat split.
    unfold Text.len. cbn [String.length]. lia.
Qed.

Lemma forallb_ascii_app (a b : string) :
  Text.str_forallb Base64.is_ascii (a ++ b)
  = Text.str_forallb Base64.is_ascii a && Text.str_forallb Base64.is_ascii b.
Proof.
  induction a as [|c a IH]; cbn [append Text.str_forallb]; [reflexivity|].
  now rewrite IH, andb_assoc.
Qed.

Lemma forallb_ascii_pads (k : nat) :
  Text.str_forallb Base64.is_ascii (Text.repeat_nat Base64.BASE64_PAD k) = true.
Proof. induction k as [|k IH]; cbn [Text.repeat_nat Text.str_forallb]; auto. Qed.

(** What the decoder makes of the closing run of pads, by its position in
    the quad. *)
Lemma a2b_loop_pads_at_0 (k : nat) :
  forall leftchar pads bin_data,
    Base64.a2b_loop (Text.repeat_nat Base64.BASE64_PAD k) 0 leftchar pads bin_data
    = inr bin_data.
Proof.
  induction k as [|k IH]; intros lc p out; cbn [Text.repeat_nat Base64.a2b_loop].
  - reflexivity.
  - rewrite Ascii.eqb_refl. cbn. apply IH.
Qed.

Lemma a2b_loop_pads_at_1 (k : nat) :
  forall leftchar pads bin_data,
    Base64.a2b_loop (Text.repeat_nat Base64.BASE64_PAD k) 1 leftchar pads bin_data
    = inl Base64.InvalidLength.
Proof.
  induction k as [|k IH]; intros lc p out; cbn [Text.repeat_nat Base64.a2b_loop].
  - reflexivity.
  - rewrite Ascii.eqb_refl. cbn. apply IH.
Qed.

(** Positions 2 and 3 need two pads and one pad. *)
Lemma a2b_loop_pads_enough (k : nat) (quad_pos : Z) :
  (quad_pos = 2 /\ (2 <= k)%nat) \/ (quad_pos = 3 /\ (1 <= k)%nat) ->
  forall leftchar bin_data,
    Base64.a2b_loop (Text.repeat_nat Base64.BASE64_PAD k) quad_pos leftchar 0
                    bin_data
    = inr bin_data.
Proof.
  intros [[-> Hk]|[-> Hk]] lc out.
  - destruct k as [|[|k]]; try lia. cbn [Text.repeat_nat Base64.a2b_loop].
    rewrite Ascii.eqb_refl. reflexivity.
  - destruct k as [|k]; try lia. cbn [Text.repeat_nat Base64.a2b_loop].
    rewrite Ascii.eqb_refl. reflexivity.
Qed.

(** A segment written in the standard alphabet is decoded after padding
    exactly when its length is not one more than a multiple of four, and
    then to [3 * length / 4] bytes (rounded down); a length of 4k + 1, such
    as 21, is rejected whatever the padding. *)
Theorem alphabet_segment_decodes_unless_one_over (segment : string) :
  in_alphabet segment = true ->
  (Text.len segment mod 4 = 1 ->
   Base64.b64decode (pad_segment segment) = inl Base64.InvalidLength)
  /\ (Text.len segment mod 4 <> 1 ->
      exists bytes,
        Base64.b64decode (pad_segment segment) = inr bytes
        /\ Text.len bytes = 3 * Text.len segment / 4).
Proof.
  intros Hin. destruct (in_alphabet_facts segment Hin) as (Hpad & Hcount & Hasc).
  assert (Hlen : 0 <= Text.len segment) by (unfold Text.len; lia).
  unfold Base64.b64decode, pad_segment, Text.str_mul.
  rewrite forallb_ascii_app, Hasc, forallb_ascii_pads. cbn [andb].
  unfold Base64.a2b_base64.
  destruct (a2b_loop_data segment
              (Text.repeat_nat Base64.BASE64_PAD (Z.to_nat (pad_count segment)))
              Hpad 0 0 0 EmptyString)
    as (lc & out & Heq & Hout); try reflexivity.
  rewrite Z.add_0_l, Hcount in Heq, Hout.
  unfold Base64.BASE64_PAD in Heq. rewrite Heq. clear Heq.
  split.
  - intros H1. rewrite H1. apply a2b_loop_pads_at_1.
  - intros H1. exists out. split; [|exact Hout].
    assert (Hq : 0 <= Text.len segment mod 4 < 4)
      by (apply Z.mod_pos_bound; lia).
    destruct (Z.eq_dec (Text.len segment mod 4) 0) as [E0|E0].
    + rewrite E0. apply a2b_loop_pads_at_0.
    + apply a2b_loop_pads_enough. unfold pad_count.
      destruct (Z.eq_dec (Text.len segment mod 4) 2) as [E2|E2].
      * left. rewrite E2. split; [reflexivity|]. cbn. lia.
      * right. assert (E3 : Text.len segment mod 4 = 3) by lia.
        rewrite E3. split; [reflexivity|]. cbn. lia.
Qed.

Lemma alphabet_segment_decodes_unless_one_over_witness :
  in_alphabet "e30" = true
  /\ (exists bytes,
        Base64.b64decode (pad_segment "e30") = inr bytes
        /\ Text.len bytes = 3 * Text.len "e30" / 4)
  /\ Base64.b64decode (pad_segment "eyJzdWIiOiJhZG1pbiJ9A")
     = inl Base64.InvalidLength.
Proof.
  split; [reflexivity|]. split.
  - apply (proj2 (alphabet_segment_decodes_unless_one_over "e30" eq_refl)).
    discriminate.
  - apply (proj1 (alphabet_segment_decodes_unless_one_over
                    "eyJzdWIiOiJhZG1pbiJ9A" eq_refl)).
    reflexivity.
Defined.

(* ------------------------------------------------------------------ *)
(** ** Further properties of the scripts *)

Section MoreProperties.

Context {env : Environment}.


(** A refused admin login is fatal in both scripts: the [HTTPError] of
    the token request ends the run, no admin call is made and nothing but
    the opening lines is printed. *)
Theorem admin_login_failure_is_fatal st status content :
  server (sent st ++ [admin_token_request]) = Reply status content ->
  ~ success status ->
  fix_main st
  = (Raise (HTTPError status content),
     sending (printing st "1. Getting admin token...") admin_token_request)
  /\ setup_main st
     = (Raise (HTTPError status content),
        sending
          (printing
             (printing (printing st (Text.str_mul "=" 60))
                       "  Keycloak Multi-tenant CRM Setup")
             (Text.str_mul "=" 60))
          admin_token_request).
Proof.
  intros Hreply Herr. split.
  - unfold fix_main, fix_admin_session, get_token, bind, print, urlopen.
    cbn [printing sending sent]. rewrite Hreply, (success_false _ Herr).
    reflexivity.
  - unfold setup_main, setup_users, setup_roles, get_admin_token, get_token,
      bind, print, urlopen.
    cbn [printing sending sent]. rewrite Hreply, (success_false _ Herr).
    reflexivity.
Qed.

(** The admin token is the [access_token] field of the JSON object the
    login answers with; an object without that field ends the login with
    [KeyError]. *)
Theorem admin_token_is_the_access_token_field st status content fields :
  server (sent st ++ [admin_token_request]) = Reply status content ->
  success status ->
  json_loads content = Some (VDict fields) ->
  get_token st
  = (match Dict.get "access_token" fields with
     | Some tok => Ok tok
     | None => Raise (KeyError "access_token")
     end,
     sending st admin_token_request).
Proof.
  intros Hreply Hok Hjson.
  unfold get_token, bind, urlopen, loads. cbn [sending sent].
  rewrite Hreply, (success_true _ Hok), Hjson. cbn [ret lift getitem_key].
  destruct (Dict.get "access_token" fields); reflexivity.
Qed.

(** With a provider that answers every call, [api] returns. *)
Lemma api_returns timeout method path payload token st :
  answers_every_call ->
  exists code body,
    api timeout method path payload token st
    = (Ok (code, body), sending st (api_request method path payload token)).
Proof.
  intros Hall. rewrite api_run.
  destruct (Hall (sent st ++ [api_request method path payload token])%list)
    as (status & content & -> & Hjson).
  destruct ((200 <=? status) && (status <? 300)) eqn:Es; [|eauto].
  destruct (String.eqb_spec content "") as [->|Hne]; cbn [negb]; [eauto|].
  assert (Hok : success status) by (unfold success; lia).
  specialize (Hjson Hok Hne).
  destruct (json_loads content); [eauto|congruence].
Qed.

Lemma create_role_returns token role st :
  answers_every_call ->
  exists line,
    create_role token role st
    = (Ok tt, printing (sending st (create_role_request token role)) line).
Proof.
  intros Hall. unfold create_role, setup_api, bind.
  destruct (api_returns 15 "POST" (realm_path "/roles")
              (VDict [("name", VStr role);
                      ("description", VStr ("CRM " ++ role ++ " role"))])
              token st Hall) as (code & body & ->).
  destruct (code =? 409); eexists; reflexivity.
Qed.

Lemma delete_role_returns token role st :
  answers_every_call ->
  exists line,
    delete_role token role st
    = (Ok tt, printing (sending st (delete_role_request token role)) line).
Proof.
  intros Hall. unfold delete_role, setup_api, bind.
  destruct (api_returns 15 "DELETE" (realm_path ("/roles/" ++ role)) VNone
              token st Hall) as (code & body & ->).
  destruct (code =? 404); eexists; reflexivity.
Qed.

(** A loop whose body always sends one request and prints one line. *)
Lemma for_each_one_request_each
      (body : string -> M unit) (req : string -> request) :
  (forall role st, exists line,
        body role st = (Ok tt, printing (sending st (req role)) line)) ->
  forall roles st,
    exists st',
      for_each roles body st = (Ok tt, st')
      /\ sent st' = (sent st ++ map req roles)%list
      /\ List.length (stdout st')
         = (List.length (stdout st) + List.length roles)%nat.
Proof.
  intros Hbody roles. induction roles as [|role roles IH]; intros st.
  - exists st. cbn. rewrite app_nil_r. auto with arith.
  - destruct (Hbody role st) as (line & Hrun).
    destruct (IH (printing (sending st (req role)) line))
      as (st' & Hloop & Hsent & Hout).
    exists st'. cbn [for_each]. unfold bind. rewrite Hrun, Hloop.
    split; [reflexivity|]. split.
    + rewrite Hsent. cbn [printing sending sent map].
      now rewrite <- app_assoc.
    + rewrite Hout. cbn [printing sending stdout List.length].
      rewrite length_app. cbn. lia.
Qed.

(** Whatever statuses the provider answers with, the two role loops run
    to their end: one request per role, in the order of the list, one line
    printed per role, and no exception. *)
Theorem role_loops_never_abort :
  answers_every_call ->
  forall token roles st,
    (exists st',
        for_each roles (create_role token) st = (Ok tt, st')
        /\ sent st' = (sent st ++ map (create_role_request token) roles)%list
        /\ List.length (stdout st')
           = (List.length (stdout st) + List.length roles)%nat)
    /\ (exists st',
           for_each roles (delete_role token) st = (Ok tt, st')
           /\ sent st' = (sent st ++ map (delete_role_request token) roles)%list
           /\ List.length (stdout st')
              = (List.length (stdout st) + List.length roles)%nat).
Proof.
  intros Hall token roles st. split.
  - apply for_each_one_request_each.
    intros role st0. now apply create_role_returns.
  - apply for_each_one_request_each.
    intros role st0. now apply delete_role_returns.
Qed.

Lemma dict_get_truthy (k : string) (v : value) (d : Dict.t) :
  Dict.get k d = Some v -> truthy (VDict d) = true.
Proof. destruct d; [discriminate|reflexivity]. Qed.



Lemma dict_get_not_key (k : string) (d : Dict.t) :
  ~ In k (Dict.keys d) -> Dict.get k d = None.
Proof.
  induction d as [|[k' v] d IH]; intros Hk; [reflexivity|].
  cbn [Dict.get]. cbn in Hk.
  destruct (String.eqb_spec k k') as [->|Hne]; [tauto|].
  apply IH. tauto.
Qed.

(** [{**a, **b}] for a display [b] without repeated keys: the entries of
    [b] win, the other keys keep the value they have in [a]. *)
Lemma dict_get_merge (b : Dict.t) :
  NoDup (Dict.keys b) ->
  forall a k,
    Dict.get k (Dict.merge a b)
    = match Dict.get k b with
      | Some v => Some v
      | None => Dict.get k a
      end.
Proof.
  unfold Dict.merge. induction b as [|[k0 v0] b IH]; intros Hnd a k.
  - reflexivity.
  - cbn [Dict.keys map fst] in Hnd. inversion Hnd as [|? ? Hnotin Hnd']; subst.
    cbn [fold_left fst snd Dict.get]. rewrite (IH Hnd').
    destruct (String.eqb_spec k k0) as [->|Hne].
    + rewrite (dict_get_not_key _ _ Hnotin). apply dict_get_set_same.
    + destruct (Dict.get k b); [reflexivity|].
      now apply dict_get_set_other.
Qed.

Lemma realm_update_keys_distinct : NoDup (Dict.keys realm_update).
Proof.
  unfold realm_update. cbn [Dict.keys map fst].
  repeat (constructor; [cbn [In]; intuition discriminate|]).
  constructor.
Qed.

(** The realm policy update writes back the fetched realm with the nine
    policy fields set to their fixed values and every other field as
    fetched; the realm is read once and written once. *)
Theorem realm_policy_overlays_fetched_realm
        token st status content (realm : Dict.t) :
  server (sent st ++ [api_request "GET" (realm_path "") VNone token])
  = Reply status content ->
  success status ->
  content <> "" ->
  json_loads content = Some (VDict realm) ->
  exists merged,
    sent (snd (setup_realm_policy token st))
    = (sent st ++ [api_request "GET" (realm_path "") VNone token;
                   api_request "PUT" (realm_path "") (VDict merged) token])%list
    /\ data (api_request "PUT" (realm_path "") (VDict merged) token)
       = Some (json_dumps (VDict merged))
    /\ (forall field v,
           Dict.get field realm_update = Some v ->
           Dict.get field merged = Some v)
    /\ (forall field,
           Dict.get field realm_update = None ->
           Dict.get field merged = Dict.get field realm).
Proof.
  intros Hreply Hok Hne Hjson.
  exists (Dict.merge realm realm_update).
  assert (Hget : forall field v,
             Dict.get field realm_update = Some v ->
             Dict.get field (Dict.merge realm realm_update) = Some v).
  { intros field v Hf.
    now rewrite (dict_get_merge _ realm_update_keys_distinct), Hf. }
  split; [|split; [|split]].
  - unfold setup_realm_policy, setup_api, bind, print.
    rewrite api_run. cbn [printing sent].
    rewrite Hreply, (success_true _ Hok), Hjson.
    apply String.eqb_neq in Hne. rewrite Hne. cbn [negb lift dict_unpack_merge].
    match goal with
    | |- context [api ?t ?m ?p ?d ?tok ?s] =>
        pose proof (api_state t m p d tok s) as Hs;
        destruct (api t m p d tok s) as [[[c b]|e|n] st1]
    end; cbn [snd] in Hs; subst st1; cbn [snd sent printing sending];
      now rewrite <- app_assoc.
  - unfold api_request, api_body. cbn [data].
    now rewrite (dict_get_truthy "accessTokenLifespan" (VInt 900)
                   _ (Hget "accessTokenLifespan" (VInt 900) eq_refl)).
  - exact Hget.
  - intros field Hf.
    now rewrite (dict_get_merge _ realm_update_keys_distinct), Hf.
Qed.

(** When the realm cannot be read (an error status), its body is text and
    cannot be unpacked into the update: the step ends in [TypeError] and
    no PUT is sent. *)
Theorem unreadable_realm_stops_policy_update token st status content :
  server (sent st ++ [api_request "GET" (realm_path "") VNone token])
  = Reply status content ->
  ~ success status ->
  setup_realm_policy token st
  = (Raise TypeError,
     sending
       (printing st
                 (nl ++ "── 6. Configure realm session/password policy ──"))
       (api_request "GET" (realm_path "") VNone token)).
Proof.
  intros Hreply Herr.
  unfold setup_realm_policy, setup_api, bind, print.
  rewrite api_run. cbn [printing sent].
  rewrite Hreply, (success_false _ Herr). reflexivity.
Qed.

(** A role lookup answered with an error status is not detected: the
    body is text, [role['id']] raises [TypeError], and no role mapping is
    sent, in the first script and in every role assignment of the
    second. *)
Theorem failed_role_lookup_raises_type_error :
  (forall token st status content,
      server (sent st ++ [api_request "GET" (realm_path "/roles/owner_admin")
                            VNone token])
      = Reply status content ->
      ~ success status ->
      fix_get_role token st
      = (Raise TypeError,
         sending (printing st "5. Getting owner_admin role...")
                 (api_request "GET" (realm_path "/roles/owner_admin")
                              VNone token)))
  /\ (forall token user_id role st status content,
         server (sent st ++ [api_request "GET" (realm_path ("/roles/" ++ role))
                               VNone token])
         = Reply status content ->
         ~ success status ->
         assign_role token user_id role st
         = (Raise TypeError,
            sending st (api_request "GET" (realm_path ("/roles/" ++ role))
                                    VNone token))).
Proof.
  split.
  - intros token st status content Hreply Herr.
    unfold fix_get_role, fix_api, bind, print.
    rewrite api_run. cbn [printing sent].
    rewrite Hreply, (success_false _ Herr). reflexivity.
  - intros token user_id role st status content Hreply Herr.
    unfold assign_role, setup_api, bind.
    rewrite api_run, Hreply, (success_false _ Herr). reflexivity.
Qed.

Lemma not_success_not_ok (status : Z) : ~ success status -> ok status = false.
Proof. unfold success, ok. lia. Qed.

(** Once the role is found, an error status of the role mapping request
    is reported with the warning mark and the run goes on. *)
Theorem refused_role_mapping_is_reported
        token user_id role st status content (role_obj : Dict.t) role_id
        status' content' :
  server (sent st ++ [api_request "GET" (realm_path ("/roles/" ++ role))
                        VNone token])
  = Reply status content ->
  success status ->
  content <> "" ->
  json_loads content = Some (VDict role_obj) ->
  Dict.get "id" role_obj = Some role_id ->
  server ((sent st ++ [api_request "GET" (realm_path ("/roles/" ++ role))
                         VNone token])
          ++ [api_request "POST"
                (realm_path ("/users/" ++ py_str user_id
                             ++ "/role-mappings/realm"))
                (role_mapping role_id role) token])
  = Reply status' content' ->
  ~ success status' ->
  assign_role token user_id role st
  = (Ok tt,
     printing
       (sending
          (sending st (api_request "GET" (realm_path ("/roles/" ++ role))
                                   VNone token))
          (api_request "POST"
             (realm_path ("/users/" ++ py_str user_id
                          ++ "/role-mappings/realm"))
             (role_mapping role_id role) token))
       ("   " ++ role ++ " role assigned: ⚠️")).
Proof.
  intros Hreply Hok Hne Hjson Hid Hreply' Herr.
  unfold assign_role, setup_api, bind.
  rewrite api_run, Hreply, (success_true _ Hok), Hjson.
  apply String.eqb_neq in Hne. rewrite Hne. cbn [negb lift getitem_key].
  rewrite Hid. unfold lift. cbv beta iota. rewrite api_run.
  cbn [sending sent]. rewrite Hreply', (success_false _ Herr).
  unfold status_icon. rewrite (not_success_not_ok _ Herr). reflexivity.
Qed.

(** The removal of the legacy role mapping is attempted only when the
    role lookup answers 200, and its own answer is never looked at: after
    an error status of the lookup nothing more is sent or printed, and
    after a found role the step prints its line and ends normally even
    when the removal is refused. *)
Theorem legacy_mapping_removal_is_best_effort token test_user_id st :
  (forall status content,
      server (sent st ++ [api_request "GET" (realm_path "/roles/owner_admin")
                            VNone token])
      = Reply status content ->
      ~ success status ->
      remove_old_owner_admin token test_user_id st
      = (Ok tt,
         sending st (api_request "GET" (realm_path "/roles/owner_admin")
                                 VNone token)))
  /\ (forall content (old_role : Dict.t) old_id status' content',
         server (sent st ++ [api_request "GET"
                               (realm_path "/roles/owner_admin") VNone token])
         = Reply 200 content ->
         content <> "" ->
         json_loads content = Some (VDict old_role) ->
         Dict.get "id" old_role = Some old_id ->
         server ((sent st ++ [api_request "GET"
                                (realm_path "/roles/owner_admin") VNone token])
                 ++ [api_request "DELETE"
                       (realm_path ("/users/" ++ py_str test_user_id
                                    ++ "/role-mappings/realm"))
                       (role_mapping old_id "owner_admin") token])
         = Reply status' content' ->
         ~ success status' ->
         remove_old_owner_admin token test_user_id st
         = (Ok tt,
            printing
              (sending
                 (sending st (api_request "GET"
                                (realm_path "/roles/owner_admin") VNone token))
                 (api_request "DELETE"
                    (realm_path ("/users/" ++ py_str test_user_id
                                 ++ "/role-mappings/realm"))
                    (role_mapping old_id "owner_admin") token))
              "   old owner_admin removed")).
Proof.
  split.
  - intros status content Hreply Herr.
    unfold remove_old_owner_admin, setup_api, bind.
    rewrite api_run, Hreply, (success_false _ Herr).
    replace (status =? 200) with false by (unfold success in Herr; lia).
    reflexivity.
  - intros content old_role old_id status' content' Hreply Hne Hjson Hid
           Hreply' Herr.
    unfold remove_old_owner_admin, setup_api, bind.
    rewrite api_run, Hreply, Hjson.
    apply String.eqb_neq in Hne. rewrite Hne.
    cbn [negb andb Z.leb Z.ltb Z.compare Pos.compare Pos.compare_cont
         Z.eqb Pos.eqb getitem_key].
    rewrite Hid. unfold lift. cbv beta iota. rewrite api_run.
    cbn [sending sent]. rewrite Hreply', (success_false _ Herr).
    reflexivity.
Qed.

(** The guard [if users:] of the test-user step: an empty list, or an
    error answered with an empty body, is taken for a missing user and
    skipped with one line; an error answered with a non-empty body passes
    the guard and ends the run in [TypeError]. *)
Theorem test_user_lookup_guard token st status content :
  server (sent st ++ [api_request "GET"
                        (realm_path "/users?username=admin@crm.local")
                        VNone token])
  = Reply status content ->
  (success status -> json_loads content = Some (VList []) ->
   setup_test_user token st
   = (Ok tt,
      printing
        (sending
           (printing st
              (nl ++ "── 7. Update existing admin@crm.local test user ──"))
           (api_request "GET" (realm_path "/users?username=admin@crm.local")
                        VNone token))
        "   admin@crm.local not found (skip)"))
  /\ (~ success status -> content = "" ->
      setup_test_user token st
      = (Ok tt,
         printing
           (sending
              (printing st
                 (nl ++ "── 7. Update existing admin@crm.local test user ──"))
              (api_request "GET" (realm_path "/users?username=admin@crm.local")
                           VNone token))
           "   admin@crm.local not found (skip)"))
  /\ (~ success status -> content <> "" ->
      setup_test_user token st
      = (Raise TypeError,
         sending
           (printing st
              (nl ++ "── 7. Update existing admin@crm.local test user ──"))
           (api_request "GET" (realm_path "/users?username=admin@crm.local")
                        VNone token))).
Proof.
  intros Hreply. split; [|split].
  - intros Hok Hjson.
    unfold setup_test_user, setup_api, bind, print.
    rewrite api_run. cbn [printing sent].
    rewrite Hreply, (success_true _ Hok).
    destruct (negb (String.eqb content "")); [rewrite Hjson|]; reflexivity.
  - intros Herr ->.
    unfold setup_test_user, setup_api, bind, print.
    rewrite api_run. cbn [printing sent].
    rewrite Hreply, (success_false _ Herr). reflexivity.
  - intros Herr Hne.
    unfold setup_test_user, setup_api, bind, print.
    rewrite api_run. cbn [printing sent].
    rewrite Hreply, (success_false _ Herr).
    destruct (error_body_index content Hne) as (Ht & c & Hi & Hk).
    rewrite Ht. unfold lift. rewrite Hi. cbv beta iota. rewrite Hk.
    reflexivity.
Qed.

(** A mapper creation answered 409 is a no-op: once the client is found,
    the step prints that the mapper exists and ends normally. *)
Theorem existing_mapper_is_noop
        token st status content clients (client : Dict.t) client_uuid body :
  server (sent st ++ [api_request "GET" (realm_path "/clients?clientId=crm-web")
                        VNone token])
  = Reply status content ->
  success status ->
  content <> "" ->
  json_loads content = Some clients ->
  getitem_int clients 0 = Val (VDict client) ->
  Dict.get "id" client = Some client_uuid ->
  server ((sent st ++ [api_request "GET"
                         (realm_path "/clients?clientId=crm-web") VNone token])
          ++ [api_request "POST"
                (realm_path ("/clients/" ++ py_str client_uuid
                             ++ "/protocol-mappers/models"))
                MAPPER token])
  = Reply 409 body ->
  setup_mapper token st
  = (Ok tt,
     printing
       (sending
          (sending
             (printing st (nl ++ "── 5. Add company_id protocol mapper ──"))
             (api_request "GET" (realm_path "/clients?clientId=crm-web")
                          VNone token))
          (api_request "POST"
             (realm_path ("/clients/" ++ py_str client_uuid
                          ++ "/protocol-mappers/models"))
             MAPPER token))
       "   company_id mapper: already exists").
Proof.
  intros Hreply Hok Hne Hjson Hfirst Hid Hreply'.
  unfold setup_mapper, setup_api, bind, print.
  rewrite api_run. cbn [printing sent].
  rewrite Hreply, (success_true _ Hok), Hjson.
  apply String.eqb_neq in Hne. rewrite Hne. cbn [negb].
  unfold lift. rewrite Hfirst. cbv beta iota. cbn [getitem_key].
  rewrite Hid. cbv beta iota. rewrite api_run. cbn [printing sending sent].
  rewrite Hreply'. reflexivity.
Qed.

Lemma never_exits_api timeout method path payload token :
  never_exits (api timeout method path payload token).
Proof.
  intros st n st'. rewrite api_run.
  repeat match goal with
         | |- context [match ?x with _ => _ end] => destruct x
         end; discriminate.
Qed.

Lemma never_exits_for_each {A : Type} (xs : list A) (body : A -> M unit) :
  (forall x, never_exits (body x)) -> never_exits (for_each xs body).
Proof.
  intros Hbody. induction xs as [|x xs IH]; cbn [for_each].
  - apply never_exits_ret.
  - apply never_exits_bind; auto.
Qed.

Lemma never_exits_guarded (body : M verdict) (prefix : string) :
  never_exits body ->
  never_exits (try_except (v <- body ;; ret (Some v)) (report_failure prefix)).
Proof.
  intros Hbody st n st' H.
  destruct (guarded_ends_normally body prefix st Hbody) as (r & st1 & Hrun).
  congruence.
Qed.

Ltac no_exit :=
  repeat first
    [ apply never_exits_ret
    | apply never_exits_lift
    | apply never_exits_print
    | apply never_exits_loads
    | apply never_exits_urlopen
    | apply never_exits_api
    | apply never_exits_if
    | apply never_exits_for_each; intros
    | apply never_exits_bind; [|intros]
    | match goal with
      | |- never_exits (match ?x with (_, _) => _ end) => destruct x
      end ].

Lemma never_exits_assign_role token user_id role :
  never_exits (assign_role token user_id role).
Proof. unfold assign_role, setup_api. no_exit. Qed.

Lemma never_exits_set_company_id token users user_id :
  never_exits (set_company_id token users user_id).
Proof. unfold set_company_id, setup_api. no_exit. Qed.

Lemma exits_only_never {A : Type} (status : Z) (m : M A) :
  never_exits m -> exits_only_with status m.
Proof. intros Hm st n st' H. exfalso. exact (Hm _ _ _ H). Qed.

Lemma exits_only_bind {A B : Type} (status : Z) (m : M A) (k : A -> M B) :
  exits_only_with status m ->
  (forall a, exits_only_with status (k a)) ->
  exits_only_with status (bind m k).
Proof.
  intros Hm Hk st n st'. unfold bind.
  destruct (m st) as [[a|e|n'] st1] eqn:E.
  - apply Hk.
  - discriminate.
  - intros [= <- <-]. exact (Hm _ _ _ E).
Qed.

Lemma exits_only_guard (found : value) (line : string) :
  exits_only_with 1 (if negb (truthy found)
                     then (print line ;; sys_exit 1)
                     else ret tt).
Proof.
  intros st n st'. destruct (truthy found); cbn [negb].
  - discriminate.
  - unfold bind, print, sys_exit. now intros [= <- <-].
Qed.

(** The scripts leave through [sys.exit] only at the two lookup guards of
    the first script, always with status 1; the second script never
    calls it.  The exit status of either run is therefore 0 or 1. *)
Theorem runs_end_with_status_0_or_1 st :
  (forall n, fst (fix_main st) = Exit n -> n = 1)
  /\ (forall n, fst (setup_main st) <> Exit n)
  /\ (process_status (fst (fix_main st)) = 0
      \/ process_status (fst (fix_main st)) = 1)
  /\ (process_status (fst (setup_main st)) = 0
      \/ process_status (fst (setup_main st)) = 1).
Proof.
  assert (Hfix : exits_only_with 1 fix_main).
  { unfold fix_main, fix_admin_session, fix_find_client, fix_find_user,
      fix_update_client, fix_get_role, fix_assign_role, fix_verify,
      fix_check_roles, get_token, fix_api.
    repeat first
      [ apply exits_only_guard
      | apply exits_only_never;
        solve [ no_exit
              | apply never_exits_fetch
              | apply never_exits_decode ]
      | apply exits_only_bind; [|intros]
      | match goal with
        | |- exits_only_with _ (match ?x with (_, _) => _ end) => destruct x
        end ]. }
  assert (Hsetup : never_exits setup_main).
  { unfold setup_main, setup_users, setup_roles, setup_super_admin,
      setup_company_admin, setup_mapper, setup_realm_policy, setup_test_user,
      remove_old_owner_admin, setup_verify, setup_summary, create_user,
      create_role, delete_role, get_admin_token, get_token, setup_api,
      verify_admin, verify_superadmin.
    repeat first
      [ apply never_exits_assign_role
      | apply never_exits_set_company_id
      | apply never_exits_guarded;
        [ apply never_exits_verify_admin_body
        || apply never_exits_verify_superadmin_body ]
      | progress no_exit ]. }
  assert (H1 : forall n, fst (fix_main st) = Exit n -> n = 1).
  { intros n H. destruct (fix_main st) as [o st'] eqn:E. cbn in H. subst o.
    exact (Hfix _ _ _ E). }
  assert (H2 : forall n, fst (setup_main st) <> Exit n).
  { intros n H. destruct (setup_main st) as [o st'] eqn:E. cbn in H. subst o.
    exact (Hsetup _ _ _ E). }
  split; [exact H1|]. split; [exact H2|]. split.
  - destruct (fst (fix_main st)) as [u|e|n]; cbn; auto.
  - destruct (fst (setup_main st)) as [u|e|n]; cbn; auto.
    exfalso. exact (H2 n eq_refl).
Qed.

End MoreProperties.

(* ------------------------------------------------------------------ *)
(** ** What the verification sends *)

Section Observation.

Context {env : Environment}.

Lemma sends_nothing_ret {A : Type} (a : A) : sends_nothing (ret a).
Proof. intros st. reflexivity. Qed.

Lemma sends_nothing_lift {A : Type} (r : result A) : sends_nothing (lift r).
Proof. intros st. unfold lift. destruct r; reflexivity. Qed.

Lemma sends_nothing_print (line : string) : sends_nothing (print line).
Proof. intros st. reflexivity. Qed.

Lemma sends_nothing_loads (text : string) : sends_nothing (loads text).
Proof. intros st. unfold loads. destruct (json_loads text); reflexivity. Qed.

Lemma sends_nothing_bind {A B : Type} (m : M A) (k : A -> M B) :
  sends_nothing m -> (forall a, sends_nothing (k a)) ->
  sends_nothing (bind m k).
Proof.
  intros Hm Hk st. unfold bind. specialize (Hm st).
  destruct (m st) as [[a|e|n] st1]; cbn [snd] in *; try assumption.
  now rewrite Hk.
Qed.

Lemma sends_nothing_if {A : Type} (b : bool) (m1 m2 : M A) :
  sends_nothing m1 -> sends_nothing m2 -> sends_nothing (if b then m1 else m2).
Proof. destruct b; auto. Qed.

Ltac sends_nothing :=
  repeat first
    [ apply sends_nothing_ret
    | apply sends_nothing_lift
    | apply sends_nothing_print
    | apply sends_nothing_loads
    | apply sends_nothing_if
    | apply sends_nothing_bind; [|intros] ].

Lemma sends_nothing_decode (tok : value) : sends_nothing (decode_claims tok).
Proof. unfold decode_claims. sends_nothing. Qed.

(** A password grant followed by steps that send nothing. *)
Lemma grant_then_nothing {A : Type} (form : string) (k : value -> M A) :
  (forall tok, sends_nothing (k tok)) ->
  forall st,
    sent (snd (bind (fetch_access_token form) k st))
    = (sent st ++ [token_request form])%list.
Proof.
  intros Hk st. unfold bind at 1.
  assert (Hfetch : sent (snd (fetch_access_token form st))
                   = (sent st ++ [token_request form])%list).
  { unfold fetch_access_token, bind, urlopen, loads. cbn [sending sent].
    destruct (server _) as [status content|reason| |]; try reflexivity.
    destruct ((200 <=? status) && (status <? 300)); [|reflexivity].
    destruct (json_loads content) as [resp|]; [|reflexivity].
    cbn [ret lift]. destruct (getitem_key resp "access_token"); reflexivity. }
  destruct (fetch_access_token form st) as [[tok|e|n] st1];
    cbn [snd] in *; try assumption.
  now rewrite Hk.
Qed.

Lemma guarded_sends_what_body_sends
      (body : M verdict) (prefix : string) (reqs : list request) st :
  sent (snd (body st)) = (sent st ++ reqs)%list ->
  sent (snd (try_except (v <- body ;; ret (Some v))
                        (report_failure prefix) st))
  = (sent st ++ reqs)%list.
Proof.
  unfold try_except, bind, report_failure, print, ret.
  destruct (body st) as [[v|e|n] st1]; cbn [snd printing sent]; auto.
Qed.

(** Verification only observes: whatever the provider answers and whatever
    the token holds, each check sends exactly one request, the password
    grant of its principal, and no call to the admin interface. *)
Theorem verification_sends_only_the_password_grant st :
  sent (snd (fix_verify st))
  = (sent st
     ++ [token_request
           "grant_type=password&client_id=crm-web&username=admin@crm.local&password=admin123"])%list
  /\ sent (snd (verify_admin st))
     = (sent st
        ++ [token_request
              "grant_type=password&client_id=crm-web&username=admin%40crm.local&password=admin123"])%list
  /\ sent (snd (verify_superadmin st))
     = (sent st
        ++ [token_request
              "grant_type=password&client_id=crm-web&username=superadmin&password=super123"])%list
  /\ sent (snd (setup_verify st))
     = (sent st
        ++ [token_request
              "grant_type=password&client_id=crm-web&username=admin%40crm.local&password=admin123";
            token_request
              "grant_type=password&client_id=crm-web&username=superadmin&password=super123"])%list.
Proof.
  assert (Hadmin : forall st0,
             sent (snd (verify_admin st0))
             = (sent st0
                ++ [token_request
                      "grant_type=password&client_id=crm-web&username=admin%40crm.local&password=admin123"])%list).
  { intros st0. unfold verify_admin. apply guarded_sends_what_body_sends.
    unfold verify_admin_body. apply grant_then_nothing.
    intros tok. unfold check_admin_claims.
    apply sends_nothing_bind; [apply sends_nothing_decode|intros].
    sends_nothing. }
  assert (Hsuper : forall st0,
             sent (snd (verify_superadmin st0))
             = (sent st0
                ++ [token_request
                      "grant_type=password&client_id=crm-web&username=superadmin&password=super123"])%list).
  { intros st0. unfold verify_superadmin. apply guarded_sends_what_body_sends.
    unfold verify_superadmin_body. apply grant_then_nothing.
    intros tok. unfold check_superadmin_claims.
    apply sends_nothing_bind; [apply sends_nothing_decode|intros].
    sends_nothing. }
  split; [|split; [|split]].
  - unfold fix_verify, bind at 1, print.
    change (sent st) with (sent (printing st "7. Verifying token has roles...")).
    apply grant_then_nothing.
    intros tok. unfold fix_check_roles.
    apply sends_nothing_bind; [apply sends_nothing_decode|intros].
    sends_nothing.
  - apply Hadmin.
  - apply Hsuper.
  - unfold setup_verify, bind at 1, print.
    destruct (guarded_ends_normally verify_admin_body
                "   ❌ Token test failed: "
                (printing st (nl ++ "── 8. Verify token claims ──"))
                never_exits_verify_admin_body) as (r1 & st1 & H1).
    fold verify_admin in H1.
    pose proof (Hadmin (printing st (nl ++ "── 8. Verify token claims ──")))
      as Hs1.
    unfold bind at 1. rewrite H1 in *. cbn [snd printing sent] in Hs1.
    destruct (guarded_ends_normally verify_superadmin_body
                "   ❌ Superadmin token test failed: " st1
                never_exits_verify_superadmin_body) as (r2 & st2 & H2).
    fold verify_superadmin in H2.
    pose proof (Hsuper st1) as Hs2.
    unfold bind at 1. rewrite H2 in *. cbn [snd ret] in *.
    rewrite Hs2, Hs1, <- app_assoc. reflexivity.
Qed.

End Observation.

(* ------------------------------------------------------------------ *)
(** ** Round trip through the decoder *)

Section RoundTrip.

Import Encode.

Lemma in_byte_values (x : Z) : 0 <= x < 256 -> In x byte_values.
Proof.
  intros H. unfold byte_values. apply in_map_iff.
  exists (Z.to_nat x). split; [lia|]. apply in_seq. lia.
Qed.

Lemma in_sextet_values (v : Z) : 0 <= v < 64 -> In v sextet_values.
Proof.
  intros H. unfold sextet_values. apply in_map_iff.
  exists (Z.to_nat v). split; [lia|]. apply in_seq. lia.
Qed.

Lemma check_bytes (P : Z -> bool) :
  forallb P byte_values = true -> forall x, 0 <= x < 256 -> P x = true.
Proof.
  intros H x Hx. rewrite forallb_forall in H. apply H, in_byte_values, Hx.
Qed.

Lemma check_bytes2 (P : Z -> Z -> bool) :
  forallb (fun x => forallb (P x) byte_values) byte_values = true ->
  forall x y, 0 <= x < 256 -> 0 <= y < 256 -> P x y = true.
Proof.
  intros H x y Hx Hy.
  apply (check_bytes (P x)); [|exact Hy].
  apply (check_bytes (fun x => forallb (P x) byte_values) H x Hx).
Qed.

Lemma code_range (c : ascii) : 0 <= Text.code c < 256.
Proof.
  unfold Text.code. pose proof (N_ascii_bounded c). lia.
Qed.

Lemma chr_code (c : ascii) : Text.chr (Text.code c) = c.
Proof.
  unfold Text.chr, Text.code. rewrite N2Z.id. apply ascii_N_embedding.
Qed.

Lemma sextets_in_range (x y : Z) :
  0 <= x < 256 -> 0 <= y < 256 ->
  is_sextet (sextet1 x) = true
  /\ is_sextet (sextet2 x y) = true
  /\ is_sextet (sextet3 x y) = true
  /\ is_sextet (sextet4 x) = true.
Proof.
  intros Hx Hy.
  assert (H : forallb (fun x => forallb (fun y =>
                is_sextet (sextet1 x) && is_sextet (sextet2 x y)
                && is_sextet (sextet3 x y) && is_sextet (sextet4 x))
                byte_values) byte_values = true)
    by (vm_compute; reflexivity).
  pose proof (check_bytes2 _ H x y Hx Hy) as Hxy. cbv beta in Hxy.
  do 3 (apply andb_true_iff in Hxy as [Hxy ?]). repeat split; assumption.
Qed.

(** The decoder's table inverts the alphabet, and no character of the
    alphabet is the pad. *)
Lemma table_alphabet (v : Z) :
  is_sextet v = true ->
  Base64.table_a2b_base64 (alphabet v) = v
  /\ Ascii.eqb (alphabet v) Base64.BASE64_PAD = false.
Proof.
  intros Hv. unfold is_sextet in Hv.
  assert (H : forallb (fun v =>
                (Base64.table_a2b_base64 (alphabet v) =? v)
                && negb (Ascii.eqb (alphabet v) Base64.BASE64_PAD))
                sextet_values = true)
    by (vm_compute; reflexivity).
  rewrite forallb_forall in H.
  specialize (H v (in_sextet_values v ltac:(lia))). cbv beta in H.
  apply andb_true_iff in H as [H1 H2].
  split; [lia|]. now apply negb_true_iff.
Qed.

(** One character of the alphabet through the loop, by position. *)
Lemma loop_data_char (v : Z) (rest : string) quad_pos leftchar pads bin_data :
  is_sextet v = true ->
  Base64.a2b_loop (String (alphabet v) rest) quad_pos leftchar pads bin_data
  = if quad_pos =? 0 then Base64.a2b_loop rest 1 v 0 bin_data
    else if quad_pos =? 1 then
      Base64.a2b_loop rest 2 (Z.land v 15) 0
        (Base64.snoc bin_data
           (Base64.u8 (Z.lor (Z.shiftl leftchar 2) (Z.shiftr v 4))))
    else if quad_pos =? 2 then
      Base64.a2b_loop rest 3 (Z.land v 3) 0
        (Base64.snoc bin_data
           (Base64.u8 (Z.lor (Z.shiftl leftchar 4) (Z.shiftr v 2))))
    else
      Base64.a2b_loop rest 0 0 0
        (Base64.snoc bin_data (Base64.u8 (Z.lor (Z.shiftl leftchar 6) v))).
Proof.
  intros Hv. destruct (table_alphabet v Hv) as [Ht Hp].
  cbn [Base64.a2b_loop]. rewrite Hp, Ht.
  unfold is_sextet in Hv. replace (64 <=? v) with false by lia.
  reflexivity.
Qed.

(** The three bytes are put back together from the four values. *)
Lemma byte1_restored (x y : Z) :
  0 <= x < 256 -> 0 <= y < 256 ->
  Z.land (Z.lor (Z.shiftl (sextet1 x) 2) (Z.shiftr (sextet2 x y) 4)) 255 = x.
Proof.
  intros Hx Hy.
  assert (H : forallb (fun x => forallb (fun y =>
                Z.land (Z.lor (Z.shiftl (sextet1 x) 2)
                              (Z.shiftr (sextet2 x y) 4)) 255 =? x)
                byte_values) byte_values = true)
    by (vm_compute; reflexivity).
  pose proof (check_bytes2 _ H x y Hx Hy) as Hxy. cbv beta in Hxy. lia.
Qed.

Lemma byte2_restored (x y z : Z) :
  0 <= x < 256 -> 0 <= y < 256 -> 0 <= z < 256 ->
  Z.land (Z.lor (Z.shiftl (Z.land (sextet2 x y) 15) 4)
                (Z.shiftr (sextet3 y z) 2)) 255 = y.
Proof.
  intros Hx Hy Hz.
  assert (H1 : forallb (fun x => forallb (fun y =>
                 Z.land (sextet2 x y) 15 =? Z.shiftr y 4)
                 byte_values) byte_values = true)
    by (vm_compute; reflexivity).
  assert (H2 : forallb (fun y => forallb (fun z =>
                 (Z.shiftr (sextet3 y z) 2 =? Z.land y 15)
                 && (Z.land (Z.lor (Z.shiftl (Z.shiftr y 4) 4) (Z.land y 15))
                            255 =? y))
                 byte_values) byte_values = true)
    by (vm_compute; reflexivity).
  pose proof (check_bytes2 _ H1 x y Hx Hy) as Hxy. cbv beta in Hxy.
  pose proof (check_bytes2 _ H2 y z Hy Hz) as Hyz. cbv beta in Hyz.
  apply andb_true_iff in Hyz as [Ha Hb].
  apply Z.eqb_eq in Hxy, Ha, Hb. now rewrite Hxy, Ha.
Qed.

Lemma byte3_restored (y z : Z) :
  0 <= y < 256 -> 0 <= z < 256 ->
  Z.land (Z.lor (Z.shiftl (Z.land (sextet3 y z) 3) 6) (sextet4 z)) 255 = z.
Proof.
  intros Hy Hz.
  assert (H : forallb (fun y => forallb (fun z =>
                Z.land (Z.lor (Z.shiftl (Z.land (sextet3 y z) 3) 6)
                              (sextet4 z)) 255 =? z)
                byte_values) byte_values = true)
    by (vm_compute; reflexivity).
  pose proof (check_bytes2 _ H y z Hy Hz) as Hyz. cbv beta in Hyz. lia.
Qed.

Lemma snoc_app (out : string) (c : ascii) (rest : string) :
  Base64.snoc out c ++ rest = out ++ String c rest.
Proof.
  unfold Base64.snoc. induction out as [|d out IH]; cbn; [reflexivity|].
  now rewrite IH.
Qed.

Lemma zero_byte : 0 <= 0 < 256.
Proof. lia. Qed.

(** Decoding an encoded text followed by enough pads gives the bytes
    back.  A last group of one byte needs two pads, of two bytes one. *)
Lemma a2b_loop_encoded (n : nat) :
  forall bytes k leftchar pads bin_data,
    (String.length bytes <= n)%nat ->
    (String.length bytes mod 3 = 1 -> 2 <= k)%nat ->
    (String.length bytes mod 3 = 2 -> 1 <= k)%nat ->
    Base64.a2b_loop
      (b64encode_unpadded bytes ++ Text.repeat_nat Base64.BASE64_PAD k)
      0 leftchar pads bin_data
    = inr (bin_data ++ bytes).
Proof.
  induction n as [|n IH]; intros bytes k lc p out Hn H1 H2.
  - destruct bytes; [|cbn in Hn; lia].
    cbn [b64encode_unpadded append]. rewrite a2b_loop_pads_at_0.
    f_equal. induction out as [|d out IHo]; cbn; [reflexivity|].
    now rewrite <- IHo.
  - destruct bytes as [|b1 [|b2 [|b3 rest]]].
    + cbn [b64encode_unpadded append]. rewrite a2b_loop_pads_at_0.
      f_equal. induction out as [|d out IHo]; cbn; [reflexivity|].
      now rewrite <- IHo.
    + pose proof (code_range b1) as Hb1.
      destruct (sextets_in_range (Text.code b1) 0 Hb1 zero_byte)
        as (S1 & S2 & _ & _).
      cbn [b64encode_unpadded append].
      rewrite (loop_data_char _ _ _ _ _ _ S1). cbn [Z.eqb].
      rewrite (loop_data_char _ _ _ _ _ _ S2). cbn [Z.eqb Pos.eqb].
      rewrite a2b_loop_pads_enough by (left; split; [reflexivity|apply H1; reflexivity]).
      unfold Base64.u8. rewrite (byte1_restored _ 0 Hb1 zero_byte), chr_code.
      reflexivity.
    + pose proof (code_range b1) as Hb1. pose proof (code_range b2) as Hb2.
      destruct (sextets_in_range (Text.code b1) (Text.code b2) Hb1 Hb2)
        as (S1 & S2 & _ & _).
      destruct (sextets_in_range (Text.code b2) 0 Hb2 zero_byte)
        as (_ & _ & S3 & _).
      cbn [b64encode_unpadded append].
      rewrite (loop_data_char _ _ _ _ _ _ S1). cbn [Z.eqb].
      rewrite (loop_data_char _ _ _ _ _ _ S2). cbn [Z.eqb Pos.eqb].
      rewrite (loop_data_char _ _ _ _ _ _ S3). cbn [Z.eqb Pos.eqb].
      rewrite a2b_loop_pads_enough by (right; split; [reflexivity|apply H2; reflexivity]).
      unfold Base64.u8.
      rewrite (byte1_restored _ _ Hb1 Hb2),
        (byte2_restored _ _ 0 Hb1 Hb2 zero_byte), !chr_code.
      change (Base64.snoc (Base64.snoc out b1) b2)
        with (Base64.snoc out b1 ++ String b2 "").
      now rewrite snoc_app.
    + pose proof (code_range b1) as Hb1. pose proof (code_range b2) as Hb2.
      pose proof (code_range b3) as Hb3.
      destruct (sextets_in_range (Text.code b1) (Text.code b2) Hb1 Hb2)
        as (S1 & S2 & _ & _).
      destruct (sextets_in_range (Text.code b2) (Text.code b3) Hb2 Hb3)
        as (_ & _ & S3 & _).
      destruct (sextets_in_range (Text.code b3) 0 Hb3 zero_byte)
        as (_ & _ & _ & S4).
      cbn [b64encode_unpadded append].
      rewrite (loop_data_char _ _ _ _ _ _ S1). cbn [Z.eqb].
      rewrite (loop_data_char _ _ _ _ _ _ S2). cbn [Z.eqb Pos.eqb].
      rewrite (loop_data_char _ _ _ _ _ _ S3). cbn [Z.eqb Pos.eqb].
      rewrite (loop_data_char _ _ _ _ _ _ S4). cbn [Z.eqb Pos.eqb].
      unfold Base64.u8.
      rewrite (byte1_restored _ _ Hb1 Hb2), (byte2_restored _ _ _ Hb1 Hb2 Hb3),
        (byte3_restored _ _ Hb2 Hb3), !chr_code.
      cbn [String.length] in Hn, H1, H2.
      assert (Hmod : (S (S (S (String.length rest))) mod 3
                      = String.length rest mod 3)%nat).
      { replace (S (S (S (String.length rest))))
          with (String.length rest + 1 * 3)%nat by lia.
        apply Nat.Div0.mod_add. }
      rewrite Hmod in H1, H2.
      rewrite (IH rest k 0 0 _ ltac:(lia) H1 H2).
      now rewrite !snoc_app.
Qed.

Lemma length_encoded (n : nat) :
  forall bytes,
    (String.length bytes <= n)%nat ->
    (String.length bytes mod 3 = 0 ->
     String.length (b64encode_unpadded bytes) mod 4 = 0)%nat
    /\ (String.length bytes mod 3 = 1 ->
        String.length (b64encode_unpadded bytes) mod 4 = 2)%nat
    /\ (String.length bytes mod 3 = 2 ->
        String.length (b64encode_unpadded bytes) mod 4 = 3)%nat.
Proof.
  induction n as [|n IH]; intros bytes Hn.
  - destruct bytes; [|cbn in Hn; lia]. cbn. repeat split; intros; lia || auto.
  - destruct bytes as [|b1 [|b2 [|b3 rest]]].
    + cbn. repeat split; intros; lia || auto.
    + cbn. repeat split; intros; lia || auto.
    + cbn. repeat split; intros; lia || auto.
    + cbn [String.length] in Hn.
      destruct (IH rest ltac:(lia)) as (I0 & I1 & I2).
      cbn [b64encode_unpadded String.length].
      replace (S (S (S (String.length rest))))
        with (String.length rest + 1 * 3)%nat by lia.
      replace (S (S (S (S (String.length (b64encode_unpadded rest))))))
        with (String.length (b64encode_unpadded rest) + 1 * 4)%nat by lia.
      rewrite !Nat.Div0.mod_add. auto.
Qed.

Lemma encoded_in_alphabet (n : nat) :
  forall bytes,
    (String.length bytes <= n)%nat ->
    in_alphabet (b64encode_unpadded bytes) = true.
Proof.
  assert (Hchar : forall v, is_sextet v = true ->
                            (Base64.table_a2b_base64 (alphabet v) <? 64) = true).
  { intros v Hv. destruct (table_alphabet v Hv) as [-> _].
    unfold is_sextet in Hv. lia. }
  unfold in_alphabet.
  induction n as [|n IH]; intros bytes Hn.
  - destruct bytes; [reflexivity|cbn in Hn; lia].
  - destruct bytes as [|b1 [|b2 [|b3 rest]]]; [reflexivity| | |].
    + pose proof (code_range b1) as Hb1.
      destruct (sextets_in_range (Text.code b1) 0 Hb1 zero_byte)
        as (S1 & S2 & _ & _).
      cbn [b64encode_unpadded Text.str_forallb].
      now rewrite (Hchar _ S1), (Hchar _ S2).
    + pose proof (code_range b1) as Hb1. pose proof (code_range b2) as Hb2.
      destruct (sextets_in_range (Text.code b1) (Text.code b2) Hb1 Hb2)
        as (S1 & S2 & _ & _).
      destruct (sextets_in_range (Text.code b2) 0 Hb2 zero_byte)
        as (_ & _ & S3 & _).
      cbn [b64encode_unpadded Text.str_forallb].
      now rewrite (Hchar _ S1), (Hchar _ S2), (Hchar _ S3).
    + pose proof (code_range b1) as Hb1. pose proof (code_range b2) as Hb2.
      pose proof (code_range b3) as Hb3.
      destruct (sextets_in_range (Text.code b1) (Text.code b2) Hb1 Hb2)
        as (S1 & S2 & _ & _).
      destruct (sextets_in_range (Text.code b2) (Text.code b3) Hb2 Hb3)
        as (_ & _ & S3 & _).
      destruct (sextets_in_range (Text.code b3) 0 Hb3 zero_byte)
        as (_ & _ & _ & S4).
      cbn [b64encode_unpadded Text.str_forallb].
      rewrite (Hchar _ S1), (Hchar _ S2), (Hchar _ S3), (Hchar _ S4).
      cbn [andb]. apply IH. cbn [String.length] in Hn. lia.
Qed.

(** Round trip: whatever bytes a segment encodes (standard alphabet, pads
    stripped), padding it as the scripts do and decoding it gives exactly
    those bytes back, also when four surplus pads are appended to a
    segment that needed none. *)
Theorem padded_encoding_decodes_to_its_bytes (bytes : string) :
  Base64.b64decode (pad_segment (b64encode_unpadded bytes)) = inr bytes.
Proof.
  pose proof (encoded_in_alphabet _ bytes (le_n _)) as Hin.
  destruct (in_alphabet_facts _ Hin) as (_ & _ & Hasc).
  destruct (length_encoded _ bytes (le_n _)) as (L0 & L1 & L2).
  unfold Base64.b64decode, pad_segment, Text.str_mul.
  rewrite forallb_ascii_app, Hasc, forallb_ascii_pads. cbn [andb].
  unfold Base64.a2b_base64, pad_count, Text.len.
  change "="%char with Base64.BASE64_PAD.
  rewrite (a2b_loop_encoded _ bytes _ 0 0 EmptyString (le_n _)).
  - reflexivity.
  - intros H. specialize (L1 H).
    pose proof (Nat2Z.inj_mod (String.length (b64encode_unpadded bytes)) 4)
      as E.
    rewrite L1 in E. change (Z.of_nat 4) with 4 in E. rewrite <- E.
    cbn. lia.
  - intros H. specialize (L2 H).
    pose proof (Nat2Z.inj_mod (String.length (b64encode_unpadded bytes)) 4)
      as E.
    rewrite L2 in E. change (Z.of_nat 4) with 4 in E. rewrite <- E.
    cbn. lia.
Qed.

End RoundTrip.

(* ------------------------------------------------------------------ *)
(** ** The further properties at concrete runs *)

Lemma not_success_500 : ~ success 500.
Proof. unfold success. lia. Qed.

Lemma failing_env_answers_every_call :
  answers_every_call (env := Demo.failing_env).
Proof.
  intros history. exists 500, "Internal Server Error".
  split; [reflexivity|]. intros H. exfalso. exact (not_success_500 H).
Qed.

Lemma admin_login_failure_is_fatal_witness :
  server (Environment := Demo.failing_env)
         (sent Demo.start ++ [admin_token_request])
  = Reply 500 "Internal Server Error"
  /\ fst (fix_main (env := Demo.failing_env) Demo.start)
     = Raise (HTTPError 500 "Internal Server Error")
  /\ fst (setup_main (env := Demo.failing_env) Demo.start)
     = Raise (HTTPError 500 "Internal Server Error").
Proof.
  split; [reflexivity|].
  destruct (admin_login_failure_is_fatal
              (env := Demo.failing_env) Demo.start 500 "Internal Server Error"
              eq_refl not_success_500) as [Hfix Hsetup].
  rewrite Hfix, Hsetup. split; reflexivity.
Defined.

Lemma admin_token_is_the_access_token_field_witness :
  server (Environment := Demo.provisioned_env)
         (sent Demo.start ++ [admin_token_request])
  = Reply 200 (Demo.dumps Demo.token_doc)
  /\ get_token (env := Demo.provisioned_env) Demo.start
     = (Ok Demo.admin_token, sending Demo.start admin_token_request).
Proof.
  split; [reflexivity|].
  apply (admin_token_is_the_access_token_field
           (env := Demo.provisioned_env) Demo.start
           200 (Demo.dumps Demo.token_doc)
           [("access_token", VStr "admin-token")]
           eq_refl success_200 eq_refl).
Defined.

Lemma role_loops_never_abort_witness :
  answers_every_call (env := Demo.failing_env)
  /\ exists st',
      for_each NEW_ROLES (create_role (env := Demo.failing_env)
                                      Demo.admin_token) Demo.start
      = (Ok tt, st')
      /\ sent st'
         = map (create_role_request (env := Demo.failing_env) Demo.admin_token)
               NEW_ROLES.
Proof.
  split; [exact failing_env_answers_every_call|].
  destruct (proj1 (role_loops_never_abort
                     (env := Demo.failing_env) failing_env_answers_every_call
                     Demo.admin_token NEW_ROLES Demo.start))
    as (st' & Hrun & Hsent & _).
  exists st'. split; assumption.
Defined.


Lemma realm_policy_overlays_fetched_realm_witness :
  server (Environment := Demo.read_only_env)
         (sent Demo.start
          ++ [api_request (env := Demo.read_only_env) "GET" (realm_path "")
                          VNone Demo.admin_token])
  = Reply 200 (Demo.dumps Demo.role_doc)
  /\ exists merged,
      sent (snd (setup_realm_policy (env := Demo.read_only_env)
                                    Demo.admin_token Demo.start))
      = [api_request (env := Demo.read_only_env) "GET" (realm_path "")
                     VNone Demo.admin_token;
         api_request (env := Demo.read_only_env) "PUT" (realm_path "")
                     (VDict merged) Demo.admin_token]
      /\ Dict.get "failureFactor" merged = Some (VInt 5)
      /\ Dict.get "name" merged = Some (VStr "owner_admin").
Proof.
  split; [reflexivity|].
  destruct (realm_policy_overlays_fetched_realm
              (env := Demo.read_only_env) Demo.admin_token Demo.start
              200 (Demo.dumps Demo.role_doc)
              [("id", VStr "r1"); ("name", VStr "owner_admin")]
              eq_refl success_200)
    as (merged & Hsent & _ & Hnew & Hold); [discriminate|reflexivity|].
  exists merged. split; [exact Hsent|]. split.
  - apply Hnew. reflexivity.
  - rewrite Hold; reflexivity.
Defined.

Lemma unreadable_realm_stops_policy_update_witness :
  server (Environment := Demo.forbidden_env)
         (sent Demo.start
          ++ [api_request (env := Demo.forbidden_env) "GET" (realm_path "")
                          VNone Demo.admin_token])
  = Reply 403 "Forbidden"
  /\ fst (setup_realm_policy (env := Demo.forbidden_env)
                             Demo.admin_token Demo.start)
     = Raise TypeError.
Proof.
  split; [reflexivity|].
  rewrite (unreadable_realm_stops_policy_update
             (env := Demo.forbidden_env) Demo.admin_token Demo.start
             403 "Forbidden" eq_refl not_success_403).
  reflexivity.
Defined.

Lemma failed_role_lookup_raises_type_error_witness :
  server (Environment := Demo.forbidden_env)
         (sent Demo.start
          ++ [api_request (env := Demo.forbidden_env) "GET"
                          (realm_path "/roles/owner_admin") VNone
                          Demo.admin_token])
  = Reply 403 "Forbidden"
  /\ fst (fix_get_role (env := Demo.forbidden_env) Demo.admin_token Demo.start)
     = Raise TypeError
  /\ fst (assign_role (env := Demo.forbidden_env) Demo.admin_token (VStr "u1")
                      "owner_admin" Demo.start)
     = Raise TypeError.
Proof.
  split; [reflexivity|]. split.
  - rewrite (proj1 (failed_role_lookup_raises_type_error
                      (env := Demo.forbidden_env))
                   Demo.admin_token Demo.start 403 "Forbidden" eq_refl
                   not_success_403).
    reflexivity.
  - rewrite (proj2 (failed_role_lookup_raises_type_error
                      (env := Demo.forbidden_env))
                   Demo.admin_token (VStr "u1") "owner_admin" Demo.start
                   403 "Forbidden" eq_refl not_success_403).
    reflexivity.
Defined.

Lemma refused_role_mapping_is_reported_witness :
  server (Environment := Demo.read_only_env)
         (sent Demo.start
          ++ [api_request (env := Demo.read_only_env) "GET"
                          (realm_path ("/roles/" ++ "owner_admin")) VNone
                          Demo.admin_token])
  = Reply 200 (Demo.dumps Demo.role_doc)
  /\ fst (assign_role (env := Demo.read_only_env) Demo.admin_token (VStr "u1")
                      "owner_admin" Demo.start)
     = Ok tt
  /\ last (stdout (snd (assign_role (env := Demo.read_only_env)
                                    Demo.admin_token (VStr "u1")
                                    "owner_admin" Demo.start))) ""
     = "   owner_admin role assigned: ⚠️".
Proof.
  split; [reflexivity|].
  rewrite (refused_role_mapping_is_reported
             (env := Demo.read_only_env) Demo.admin_token (VStr "u1")
             "owner_admin" Demo.start 200 (Demo.dumps Demo.role_doc)
             [("id", VStr "r1"); ("name", VStr "owner_admin")] (VStr "r1")
             403 "Forbidden");
    [split; reflexivity|reflexivity|exact success_200|discriminate
     |reflexivity|reflexivity|reflexivity|exact not_success_403].
Defined.

Lemma legacy_mapping_removal_is_best_effort_witness :
  server (Environment := Demo.forbidden_env)
         (sent Demo.start
          ++ [api_request (env := Demo.forbidden_env) "GET"
                          (realm_path "/roles/owner_admin") VNone
                          Demo.admin_token])
  = Reply 403 "Forbidden"
  /\ remove_old_owner_admin (env := Demo.forbidden_env) Demo.admin_token
                            (VStr "u1") Demo.start
     = (Ok tt,
        sending Demo.start
                (api_request (env := Demo.forbidden_env) "GET"
                             (realm_path "/roles/owner_admin") VNone
                             Demo.admin_token))
  /\ fst (remove_old_owner_admin (env := Demo.read_only_env) Demo.admin_token
                                 (VStr "u1") Demo.start)
     = Ok tt
  /\ last (stdout (snd (remove_old_owner_admin (env := Demo.read_only_env)
                                               Demo.admin_token (VStr "u1")
                                               Demo.start))) ""
     = "   old owner_admin removed".
Proof.
  split; [reflexivity|]. split.
  - apply (proj1 (legacy_mapping_removal_is_best_effort
                    (env := Demo.forbidden_env) Demo.admin_token (VStr "u1")
                    Demo.start)
                 403 "Forbidden" eq_refl not_success_403).
  - rewrite (proj2 (legacy_mapping_removal_is_best_effort
                      (env := Demo.read_only_env) Demo.admin_token (VStr "u1")
                      Demo.start)
                   (Demo.dumps Demo.role_doc)
                   [("id", VStr "r1"); ("name", VStr "owner_admin")]
                   (VStr "r1") 403 "Forbidden");
      [split; reflexivity|reflexivity|discriminate|reflexivity|reflexivity
       |reflexivity|exact not_success_403].
Defined.

Lemma test_user_lookup_guard_witness :
  server (Environment := Demo.provisioned_env)
         (sent Demo.start
          ++ [api_request (env := Demo.provisioned_env) "GET"
                          (realm_path "/users?username=admin@crm.local")
                          VNone Demo.admin_token])
  = Reply 200 "[]"
  /\ fst (setup_test_user (env := Demo.provisioned_env) Demo.admin_token
                          Demo.start)
     = Ok tt
  /\ fst (setup_test_user (env := Demo.forbidden_env) Demo.admin_token
                          Demo.start)
     = Raise TypeError.
Proof.
  split; [reflexivity|]. split.
  - rewrite (proj1 (test_user_lookup_guard
                      (env := Demo.provisioned_env) Demo.admin_token
                      Demo.start 200 "[]" eq_refl)
                   success_200 eq_refl).
    reflexivity.
  - rewrite (proj2 (proj2 (test_user_lookup_guard
                             (env := Demo.forbidden_env) Demo.admin_token
                             Demo.start 403 "Forbidden" eq_refl))
                   not_success_403);
      [reflexivity|discriminate].
Defined.

Lemma existing_mapper_is_noop_witness :
  server (Environment := Demo.everything_exists_env)
         (sent Demo.start
          ++ [api_request (env := Demo.everything_exists_env) "GET"
                          (realm_path "/clients?clientId=crm-web") VNone
                          Demo.admin_token])
  = Reply 200 (Demo.dumps Demo.clients_doc)
  /\ fst (setup_mapper (env := Demo.everything_exists_env) Demo.admin_token
                       Demo.start)
     = Ok tt
  /\ last (stdout (snd (setup_mapper (env := Demo.everything_exists_env)
                                     Demo.admin_token Demo.start))) ""
     = "   company_id mapper: already exists".
Proof.
  split; [reflexivity|].
  rewrite (existing_mapper_is_noop
             (env := Demo.everything_exists_env) Demo.admin_token Demo.start
             200 (Demo.dumps Demo.clients_doc) Demo.clients_doc
             [("id", VStr "c1"); ("clientId", VStr "crm-web")] (VStr "c1")
             "Conflict");
    [split; reflexivity|reflexivity|exact success_200|discriminate
     |reflexivity|reflexivity|reflexivity|reflexivity].
Defined.
